(** * how_fast_is_server: the dispatch and aggregation engine

    A shallow embedding of [how_fast_is_server.c] (one C file, LP64 Linux
    with glibc and libcurl) and the properties of its specification.

    - C integers are [Z] with the wrap-around of their width written out
      ([to_int] for [int], [to_long] for [long], [time_t], [curl_off_t] and
      [int_fast64_t], all 64 bits on the platform the program targets).
    - C strings are [string] values (the bytes before the terminating NUL).
    - The array [threads] is a list updated by index; a failed [calloc] is
      the null pointer, and touching it is a fault.
    - [main] runs in a small state monad with early exit ([exit(3)]) whose
      state holds the variables of [main] and the ordered list of the
      calls it makes to the outside world.
    - What the outside world answers (the clock, libcurl, pthreads, the
      allocator) is an explicit environment, quantified over in the
      theorems. *)

From Stdlib Require Import ZArith Nnat String Ascii DecimalString DecimalN DecimalPos DecimalFacts Lia.
From stdpp Require Import base list strings.

Local Open Scope Z_scope.

(** * Part I: the program *)

(** ** Machine integers *)

(** Two's complement reduction of [x] to a signed integer of [bits] bits. *)
Definition wrap_signed (bits x : Z) : Z :=
  (x + 2 ^ (bits - 1)) mod 2 ^ bits - 2 ^ (bits - 1).

Definition INT_MAX : Z := 2147483647.
Definition INT_MIN : Z := -2147483648.
Definition LONG_MAX : Z := 9223372036854775807.
Definition LONG_MIN : Z := -9223372036854775808.

Definition to_int (x : Z) : Z := wrap_signed 32 x.
Definition to_long (x : Z) : Z := wrap_signed 64 x.

Definition in_int (x : Z) : Prop := INT_MIN <= x <= INT_MAX.
Definition in_long (x : Z) : Prop := LONG_MIN <= x <= LONG_MAX.

(** ** Timestamps: [struct timespec] and [timespec_diff_macro] *)

Record timespec := mk_timespec { tv_sec : Z; tv_nsec : Z }.

(** [timespec_diff_macro(a, b, result)]: the value left in [*result]. *)
Definition timespec_diff_macro (a b : timespec) : timespec :=
  let sec := to_long (tv_sec a - tv_sec b) in
  let nsec := to_long (tv_nsec a - tv_nsec b) in
  if nsec <? 0
  then {| tv_sec := to_long (sec - 1); tv_nsec := to_long (nsec + 1000000000) |}
  else {| tv_sec := sec; tv_nsec := nsec |}.

(** A nanosecond field as the clock delivers it. *)
Definition nsec_ok (t : timespec) : Prop := 0 <= tv_nsec t <= 999999999.


(** The instant a timestamp denotes, in nanoseconds. *)
Definition nanos (t : timespec) : Z := tv_sec t * 1000000000 + tv_nsec t.

(** ** Text: [printf] conversions and [strrchr] *)

Definition LF : ascii := "010"%char.
Definition TAB : ascii := "009"%char.
Definition newline : string := String LF EmptyString.
Definition tab : string := String TAB EmptyString.

(** The decimal digits of [|z|]. *)
Definition digits (z : Z) : string :=
  NilZero.string_of_uint (N.to_uint (Z.abs_N z)).

Fixpoint zeros (n : nat) : string :=
  match n with
  | O => EmptyString
  | S k => String "0" (zeros k)
  end.

(** [%0<width>ld]: sign first, then zeros up to the field width. *)
Definition fmt_0ld (width : nat) (z : Z) : string :=
  let d := digits z in
  if z <? 0
  then "-" +:+ zeros (width - 1 - String.length d) +:+ d
  else zeros (width - String.length d) +:+ d.

(** [%d] and [%ld]. *)
Definition fmt_ld (z : Z) : string := fmt_0ld 0 z.

(** [%s] of a pointer that may be null (glibc prints [(null)]). *)
Definition fmt_s (s : option string) : string := from_option id "(null)" s.

(** [strrchr(s, c)]: the offset of the last [c] in [s], [None] for NULL. *)
Fixpoint strrchr (s : string) (c : ascii) : option nat :=
  match s with
  | EmptyString => None
  | String a rest =>
      match strrchr rest c with
      | Some k => Some (S k)
      | None => if Ascii.eqb a c then Some O else None
      end
  end.

(** Measures on printed text. *)
Fixpoint count_char (c : ascii) (s : string) : nat :=
  match s with
  | EmptyString => O
  | String a rest => ((if Ascii.eqb a c then 1 else 0) + count_char c rest)%nat
  end.

Fixpoint last_char (s : string) : option ascii :=
  match s with
  | EmptyString => None
  | String a EmptyString => Some a
  | String _ rest => last_char rest
  end.

(** [s] ends in exactly one newline: it is a newline-terminated [body]
    that does not itself end in a newline. *)
Definition ends_in_one_newline (s : string) : Prop :=
  exists body, s = body +:+ newline /\ last_char body <> Some LF.

(** [s] is one line of output: its only newline is its last character. *)
Definition single_line (s : string) : Prop :=
  count_char LF s = 1%nat /\ last_char s = Some LF.

(** ** Worker records: [struct thread_info] *)

Record thread_info := mk_thread_info {
  thread_id : Z;
  thread_num : Z;
  url : option string;
  start : timespec;
  end_ : timespec;
  response_code : Z;
  os_error_code : Z;
  curl_error_code : Z;
  curl_error_string : string;
  curl_total : Z
}.

(** One element of the array [calloc] returns: every byte is zero. *)
Definition zero_thread_info : thread_info :=
  {| thread_id := 0; thread_num := 0; url := None;
     start := mk_timespec 0 0; end_ := mk_timespec 0 0;
     response_code := 0; os_error_code := 0; curl_error_code := 0;
     curl_error_string := EmptyString; curl_total := 0 |}.

Definition set_thread_id (v : Z) (t : thread_info) : thread_info :=
  mk_thread_info v (thread_num t) (url t) (start t) (end_ t) (response_code t)
    (os_error_code t) (curl_error_code t) (curl_error_string t) (curl_total t).
Definition set_thread_num (v : Z) (t : thread_info) : thread_info :=
  mk_thread_info (thread_id t) v (url t) (start t) (end_ t) (response_code t)
    (os_error_code t) (curl_error_code t) (curl_error_string t) (curl_total t).
Definition set_url (v : option string) (t : thread_info) : thread_info :=
  mk_thread_info (thread_id t) (thread_num t) v (start t) (end_ t) (response_code t)
    (os_error_code t) (curl_error_code t) (curl_error_string t) (curl_total t).
Definition set_start (v : timespec) (t : thread_info) : thread_info :=
  mk_thread_info (thread_id t) (thread_num t) (url t) v (end_ t) (response_code t)
    (os_error_code t) (curl_error_code t) (curl_error_string t) (curl_total t).
Definition set_end (v : timespec) (t : thread_info) : thread_info :=
  mk_thread_info (thread_id t) (thread_num t) (url t) (start t) v (response_code t)
    (os_error_code t) (curl_error_code t) (curl_error_string t) (curl_total t).
Definition set_response_code (v : Z) (t : thread_info) : thread_info :=
  mk_thread_info (thread_id t) (thread_num t) (url t) (start t) (end_ t) v
    (os_error_code t) (curl_error_code t) (curl_error_string t) (curl_total t).
Definition set_os_error_code (v : Z) (t : thread_info) : thread_info :=
  mk_thread_info (thread_id t) (thread_num t) (url t) (start t) (end_ t) (response_code t)
    v (curl_error_code t) (curl_error_string t) (curl_total t).
Definition set_curl_error_code (v : Z) (t : thread_info) : thread_info :=
  mk_thread_info (thread_id t) (thread_num t) (url t) (start t) (end_ t) (response_code t)
    (os_error_code t) v (curl_error_string t) (curl_total t).
Definition set_curl_error_string (v : string) (t : thread_info) : thread_info :=
  mk_thread_info (thread_id t) (thread_num t) (url t) (start t) (end_ t) (response_code t)
    (os_error_code t) (curl_error_code t) v (curl_total t).
Definition set_curl_total (v : Z) (t : thread_info) : thread_info :=
  mk_thread_info (thread_id t) (thread_num t) (url t) (start t) (end_ t) (response_code t)
    (os_error_code t) (curl_error_code t) (curl_error_string t) v.

(** ** The worker: [start_curl_run] *)

Module Worker.

(** What the clock and libcurl answer to one worker. *)
Record answers := {
  clock_at_start : timespec;
  curl_easy_init_ok : bool;          (* false: curl_easy_init returned NULL *)
  perform_result : Z;                (* the CURLcode of curl_easy_perform *)
  perform_error_buffer : string;     (* what it left in CURLOPT_ERRORBUFFER *)
  info_total_time_t : Z;
  info_response_code : Z;
  info_os_errno : Z;
  clock_at_end : timespec
}.

Inductive stamp := StampStart | StampEnd.

Inductive curl_option :=
| CURLOPT_ERRORBUFFER
| CURLOPT_WRITEFUNCTION
| CURLOPT_URL (u : option string).

Inductive curl_info :=
| CURLINFO_TOTAL_TIME_T
| CURLINFO_RESPONSE_CODE
| CURLINFO_OS_ERRNO.

(** The calls of one worker, in program order. *)
Inductive call :=
| TimespecGet (field : stamp)
| CurlEasyInit
| CurlEasySetopt (o : curl_option)
| CurlEasyPerform
| CurlEasyGetinfo (i : curl_info)
| CurlEasyCleanup
| Stderr (text : string).

(** State of a worker: its own record and the calls made so far. *)
Definition state : Type := thread_info * list call.

Definition W (A : Type) : Type := state -> A * state.

Definition ret {A} (a : A) : W A := fun s => (a, s).
Definition bind {A B} (m : W A) (f : A -> W B) : W B :=
  fun s => let (a, s') := m s in f a s'.

Notation "x <- m ;; k" := (bind m (fun x => k))
  (at level 100, m at next level, right associativity).
Notation "m ;; k" := (bind m (fun _ => k))
  (at level 100, right associativity).

Definition did (c : call) : W unit := fun s => (tt, (s.1, s.2 ++ [c])).
Definition this_thread : W thread_info := fun s => (s.1, s).
Definition store (f : thread_info -> thread_info) : W unit :=
  fun s => (tt, (f s.1, s.2)).

Definition timespec_get (field : stamp) (now : timespec) : W unit :=
  did (TimespecGet field) ;;
  store (match field with StampStart => set_start now | StampEnd => set_end now end).

Definition curl_easy_init (a : answers) : W bool :=
  did CurlEasyInit ;; ret (curl_easy_init_ok a).

Definition curl_easy_setopt (o : curl_option) : W unit := did (CurlEasySetopt o).

(** The transfer: libcurl fills the error buffer it was given. *)
Definition curl_easy_perform (a : answers) : W Z :=
  did CurlEasyPerform ;;
  store (set_curl_error_string (perform_error_buffer a)) ;;
  ret (perform_result a).

Definition curl_easy_getinfo (a : answers) (i : curl_info) : W unit :=
  did (CurlEasyGetinfo i) ;;
  store (match i with
         | CURLINFO_TOTAL_TIME_T => set_curl_total (info_total_time_t a)
         | CURLINFO_RESPONSE_CODE => set_response_code (info_response_code a)
         | CURLINFO_OS_ERRNO => set_os_error_code (info_os_errno a)
         end).

Definition start_curl_run (a : answers) : W unit :=
  timespec_get StampStart (clock_at_start a) ;;
  curl <- curl_easy_init a ;;
  (if curl : bool then
     store (set_curl_error_string EmptyString) ;;
     curl_easy_setopt CURLOPT_ERRORBUFFER ;;
     curl_easy_setopt CURLOPT_WRITEFUNCTION ;;
     t <- this_thread ;;
     curl_easy_setopt (CURLOPT_URL (url t)) ;;
     curl_result <- curl_easy_perform a ;;
     store (set_curl_error_code curl_result) ;;
     curl_easy_getinfo a CURLINFO_TOTAL_TIME_T ;;
     curl_easy_getinfo a CURLINFO_RESPONSE_CODE ;;
     curl_easy_getinfo a CURLINFO_OS_ERRNO ;;
     did CurlEasyCleanup
   else
     t <- this_thread ;;
     did (Stderr ("unable to initialize curl object for thread_number: "
                    +:+ fmt_ld (thread_num t)))) ;;
  timespec_get StampEnd (clock_at_end a).

(** The record a worker leaves behind, and the calls it made. *)
Definition run (a : answers) (t : thread_info) : thread_info * list call :=
  snd (start_curl_run a (t, [])).

End Worker.

(** ** The controller and the aggregator: [main] *)

Record configuration := mk_configuration {
  program_name : option string;
  config_url : option string;          (* the field [url] of the source *)
  number_of_runs : Z;
  silent : Z;
  program_start : timespec;
  program_end : timespec
}.

Definition WAIT_TIME_NANO : Z := 150000.
Definition EXIT_FAILURE : Z := 1.

(** What the outside world answers to [main] and to each of its workers,
    the workers being named by their index in [threads]. *)
Record world := {
  clock_program_start : timespec;
  clock_program_end : timespec;
  calloc_ok : bool;                    (* false: calloc returned NULL *)
  pthread_create_result : Z -> Z;
  pthread_create_id : Z -> Z;
  worker_answers : Z -> Worker.answers;
  pthread_join_result : Z -> Z
}.

(** The calls [main] makes, in program order. *)
Inductive call :=
| Stdout (text : string)
| Perror (en : Z) (msg : string)       (* errno = en; perror(msg) *)
| TimespecGet
| Calloc (nmemb : Z)
| CurlGlobalInit
| PthreadCreate (i : Z)
| Nanosleep (nsec : Z)
| PthreadJoin (i : Z)
| CurlGlobalCleanup
| Free.

(** The variables of [main]; [threads = None] is the null pointer. *)
Record state := mk_state {
  config : configuration;
  threads : option (list thread_info);
  errors : Z;
  elapsed_time : timespec;
  elapsed_program_time : timespec;
  calls : list call
}.

Definition set_config (v : configuration) (s : state) : state :=
  mk_state v (threads s) (errors s) (elapsed_time s) (elapsed_program_time s) (calls s).
Definition set_threads (v : option (list thread_info)) (s : state) : state :=
  mk_state (config s) v (errors s) (elapsed_time s) (elapsed_program_time s) (calls s).
Definition set_errors (v : Z) (s : state) : state :=
  mk_state (config s) (threads s) v (elapsed_time s) (elapsed_program_time s) (calls s).
Definition set_elapsed_time (v : timespec) (s : state) : state :=
  mk_state (config s) (threads s) (errors s) v (elapsed_program_time s) (calls s).
Definition set_elapsed_program_time (v : timespec) (s : state) : state :=
  mk_state (config s) (threads s) (errors s) (elapsed_time s) v (calls s).
Definition add_call (c : call) (s : state) : state :=
  mk_state (config s) (threads s) (errors s) (elapsed_time s) (elapsed_program_time s)
    (calls s ++ [c]).

Definition set_program_start (v : timespec) (c : configuration) : configuration :=
  mk_configuration (program_name c) (config_url c) (number_of_runs c) (silent c)
    v (program_end c).
Definition set_program_end (v : timespec) (c : configuration) : configuration :=
  mk_configuration (program_name c) (config_url c) (number_of_runs c) (silent c)
    (program_start c) v.

(** How a computation of [main] ends: it goes on with a value, the process
    exits with a status, or it faults on a null or out-of-range access. *)
Inductive result (A : Type) :=
| Done (a : A)
| Exited (status : Z)
| Faulted.
Arguments Done {A} a.
Arguments Exited {A} status.
Arguments Faulted {A}.

Definition M (A : Type) : Type := state -> result A * state.

Definition ret {A} (a : A) : M A := fun s => (Done a, s).
Definition bind {A B} (m : M A) (f : A -> M B) : M B :=
  fun s =>
    match m s with
    | (Done a, s') => f a s'
    | (Exited status, s') => (Exited status, s')
    | (Faulted, s') => (Faulted, s')
    end.

Notation "x <- m ;; k" := (bind m (fun x => k))
  (at level 100, m at next level, right associativity).
Notation "m ;; k" := (bind m (fun _ => k))
  (at level 100, right associativity).

Definition exit {A} (status : Z) : M A := fun s => (Exited status, s).
Definition fault {A} : M A := fun s => (Faulted, s).
Definition get {A} (f : state -> A) : M A := fun s => (Done (f s), s).
Definition modify (f : state -> state) : M unit := fun s => (Done tt, f s).
Definition did (c : call) : M unit := modify (add_call c).
Definition when (b : bool) (m : M unit) : M unit := if b then m else ret tt.

(** [for(i = first; ...; i++) body], run for [n] rounds. The counter is an
    [int_fast64_t] that stays below [number_of_runs], a [long]: it does
    not wrap. *)
Fixpoint for_loop (n : nat) (i : Z) (body : Z -> M unit) : M unit :=
  match n with
  | O => ret tt
  | S k => body i ;; for_loop k (i + 1) body
  end.

(** [threads[i]] read, and [threads[i]] updated in place. *)
Definition thread_at (i : Z) : M thread_info :=
  fun s =>
    match threads s with
    | Some l =>
        match l !! Z.to_nat i with
        | Some t => if 0 <=? i then (Done t, s) else (Faulted, s)
        | None => (Faulted, s)
        end
    | None => (Faulted, s)
    end.

Definition update_thread (i : Z) (f : thread_info -> thread_info) : M unit :=
  t <- thread_at i ;;
  modify (fun s => set_threads (option_map (fun l => <[Z.to_nat i := f t]> l) (threads s)) s).

Definition printf (text : string) : M unit := did (Stdout text).

(** [handle_error_en(en, msg)] *)
Definition handle_error_en {A} (en : Z) (msg : string) : M A :=
  did (Perror en msg) ;; exit EXIT_FAILURE.

Definition usage (argv : option string) : M unit :=
  printf ("Usage: " +:+ fmt_s argv
          +:+ " -u URL -r number of runs ][-s produce less output]" +:+ newline) ;;
  printf ("Pipe through tee to create a logfile" +:+ newline) ;;
  printf (tab +:+ fmt_s argv +:+ " -u http://localhost -r 30000 | tee full.log" +:+ newline) ;;
  printf (tab +:+ fmt_s argv +:+ " -u http://localhost -r 30000 -s | tee error.log" +:+ newline) ;;
  exit 1.

Definition validate_configuration (c : configuration) : Z :=
  if negb (bool_decide (is_Some (program_name c)))
     || negb (bool_decide (is_Some (config_url c)))
     || (number_of_runs c =? 0)
  then 0 else 1.

(** [calloc(nmemb, sizeof(struct thread_info))]; a negative [nmemb]
    converts to a [size_t] that no allocation can satisfy. *)
Definition calloc (w : world) (nmemb : Z) : M unit :=
  did (Calloc nmemb) ;;
  modify (set_threads
            (if calloc_ok w && (0 <=? nmemb)
             then Some (replicate (Z.to_nat nmemb) zero_thread_info)
             else None)).

(** [pthread_create(&threads[i].thread_id, NULL, start_curl_run, &threads[i])].
    The new thread runs [start_curl_run] on [threads[i]] concurrently with
    [main] and with the other threads. It writes that element only, and
    [main] reads the element only after it has joined the thread, so the
    model lets the thread run to completion here. *)
Definition pthread_create (w : world) (i : Z) : M Z :=
  did (PthreadCreate i) ;;
  if pthread_create_result w i =? 0
  then
    update_thread i (fun t =>
      fst (Worker.run (worker_answers w i) (set_thread_id (pthread_create_id w i) t))) ;;
    ret 0
  else ret (pthread_create_result w i).

(** [pthread_join(threads[i].thread_id, &response)] *)
Definition pthread_join (w : world) (i : Z) : M Z :=
  _ <- thread_at i ;;
  did (PthreadJoin i) ;;
  ret (pthread_join_result w i).

(** The per-record line of the aggregator. *)
Definition telemetry_line (t : thread_info) (elapsed : timespec) (nl : string) : string :=
  "Thread=" +:+ fmt_ld (thread_num t)
  +:+ ": response_code=" +:+ fmt_ld (response_code t)
  +:+ ": seconds=" +:+ fmt_ld (tv_sec elapsed) +:+ "." +:+ fmt_0ld 9 (tv_nsec elapsed)
  +:+ ": curl_time_t=" +:+ fmt_0ld 6 (curl_total t)
  +:+ ": os_error_code=" +:+ fmt_ld (os_error_code t)
  +:+ ": curl_error_code=" +:+ fmt_ld (curl_error_code t)
  +:+ ": curl_error=" +:+ curl_error_string t +:+ nl.

(** The [nl] of the second loop: nothing when [strrchr] finds a newline in
    the error string, a newline when it finds none. *)
Definition line_end (curl_error : string) : string :=
  match strrchr curl_error LF with
  | Some _ => EmptyString
  | None => newline
  end.

(** The last line of the run. *)
Definition summary_line (errs runs : Z) (elapsed : timespec) : string :=
  fmt_ld errs +:+ " errors out of " +:+ fmt_ld runs +:+ " runs in "
  +:+ fmt_ld (tv_sec elapsed) +:+ "." +:+ fmt_0ld 9 (tv_nsec elapsed)
  +:+ " real seconds" +:+ newline.

(** The body of the first loop of [main]: set up and start worker [i]. *)
Definition dispatch_body (w : world) (i : Z) : M unit :=
  update_thread i (set_thread_num (to_int i)) ;;
  cfg <- get config ;;
  update_thread i (set_url (config_url cfg)) ;;
  result <- pthread_create w i ;;
  when (negb (result =? 0))
    (handle_error_en result ("pthread_create: thread_num " +:+ fmt_ld i)) ;;
  did (Nanosleep WAIT_TIME_NANO).

(** The body of the second loop of [main]: join worker [i], then account
    for its record and report it. *)
Definition aggregate_body (w : world) (i : Z) : M unit :=
  result <- pthread_join w i ;;
  when (negb (result =? 0))
    (handle_error_en result ("pthread_join: thread_num " +:+ fmt_ld i)) ;;
  t <- thread_at i ;;
  modify (set_elapsed_time (timespec_diff_macro (end_ t) (start t))) ;;
  when (negb (curl_error_code t =? 0))
    (modify (fun s => set_errors (to_int (errors s + 1)) s)) ;;
  cfg <- get config ;;
  when ((silent cfg =? 0) || negb (curl_error_code t =? 0))
    (let nl := line_end (curl_error_string t) in
     elapsed <- get elapsed_time ;;
     did (Stdout (telemetry_line t elapsed nl))).

(** The first loop: the Dispatch Controller. *)
Definition dispatch (w : world) : M unit :=
  cfg <- get config ;;
  for_loop (Z.to_nat (number_of_runs cfg)) 0 (dispatch_body w).

(** [int errors = 0] and the second loop: the Result Aggregator. *)
Definition aggregate (w : world) : M unit :=
  modify (set_errors 0) ;;
  cfg <- get config ;;
  for_loop (Z.to_nat (number_of_runs cfg)) 0 (aggregate_body w).

(** [if(!validate_configuration(&config)) usage(config.program_name);] *)
Definition check_configuration : M unit :=
  cfg <- get config ;;
  when (validate_configuration cfg =? 0) (usage (program_name cfg)).

(** From the first clock reading to [curl_global_init]. *)
Definition setup (w : world) : M unit :=
  did TimespecGet ;;
  modify (fun s => set_config (set_program_start (clock_program_start w) (config s)) s) ;;
  cfg <- get config ;;
  calloc w (number_of_runs cfg) ;;
  did CurlGlobalInit.

(** From [curl_global_cleanup] to [return 0]. *)
Definition finish (w : world) : M Z :=
  did CurlGlobalCleanup ;;
  did Free ;;
  did TimespecGet ;;
  modify (fun s => set_config (set_program_end (clock_program_end w) (config s)) s) ;;
  cfg <- get config ;;
  modify (set_elapsed_program_time
            (timespec_diff_macro (program_end cfg) (program_start cfg))) ;;
  errs <- get errors ;;
  elapsed <- get elapsed_program_time ;;
  printf (summary_line errs (number_of_runs cfg) elapsed) ;;
  ret 0.

(** [main], from the end of option parsing on: the state it starts in holds
    the [config] that [getopt] filled in. Its value is the status it
    returns. *)
Definition main (w : world) : M Z :=
  check_configuration ;;
  setup w ;;
  dispatch w ;;
  aggregate w ;;
  finish w.

(** The state [main] starts in once the options are parsed: no array yet,
    nothing called yet. *)
Definition initial_state (c : configuration) : state :=
  {| config := c; threads := None; errors := 0;
     elapsed_time := mk_timespec 0 0; elapsed_program_time := mk_timespec 0 0;
     calls := [] |}.

(** The summary of a run: what the last line reports. *)
Record RunSummary := mk_RunSummary {
  total_errors : Z;
  total_runs : Z;
  total_elapsed : timespec
}.

Definition run_summary (s : state) : RunSummary :=
  {| total_errors := errors s;
     total_runs := number_of_runs (config s);
     total_elapsed := timespec_diff_macro (program_end (config s)) (program_start (config s)) |}.

(** The records with a transport error: [curl_error_code] is not zero. *)
Definition is_error (t : thread_info) : bool := negb (curl_error_code t =? 0).

Definition count_errors (l : list thread_info) : Z :=
  Z.of_nat (length (filter (fun t => is_error t = true) l)).

(** ** Closed forms, measures and sample worlds for the statements *)

(** A call that reads the clock into the record. *)
Definition is_timespec_get (c : Worker.call) : bool :=
  match c with Worker.TimespecGet _ => true | _ => false end.

(** The fixed fields of the line of a record: all but the error string
    and the line end. *)
Definition line_prefix (t : thread_info) (elapsed : timespec) : string :=
  "Thread=" +:+ fmt_ld (thread_num t)
  +:+ ": response_code=" +:+ fmt_ld (response_code t)
  +:+ ": seconds=" +:+ fmt_ld (tv_sec elapsed) +:+ "." +:+ fmt_0ld 9 (tv_nsec elapsed)
  +:+ ": curl_time_t=" +:+ fmt_0ld 6 (curl_total t)
  +:+ ": os_error_code=" +:+ fmt_ld (os_error_code t)
  +:+ ": curl_error_code=" +:+ fmt_ld (curl_error_code t)
  +:+ ": curl_error=".

(** The line the second loop prints for a record. *)
Definition report_line (t : thread_info) (elapsed : timespec) : string :=
  telemetry_line t elapsed (line_end (curl_error_string t)).

(** An error string that is one line: no newline, unless as its last
    character. *)
Definition one_line_error (err body : string) : Prop :=
  count_char LF body = O /\ (err = body \/ err = body +:+ newline).

(** The record of worker [i] once its thread is done, from the element [t]
    of the array it was given. *)
Definition started (w : world) (u : option string) (i : Z) (t : thread_info) : thread_info :=
  fst (Worker.run (worker_answers w i)
         (set_thread_id (pthread_create_id w i)
            (set_url u (set_thread_num (to_int i) t)))).

(** The records of workers [i], [i + 1], ... ([n] of them). *)
Fixpoint dispatched (w : world) (u : option string) (i : Z) (n : nat) : list thread_info :=
  match n with
  | O => []
  | S k => started w u i zero_thread_info :: dispatched w u (i + 1) k
  end.

(** The calls of [n] rounds of the first loop, from worker [i] on. *)
Fixpoint dispatch_calls (i : Z) (n : nat) : list call :=
  match n with
  | O => []
  | S k => PthreadCreate i :: Nanosleep WAIT_TIME_NANO :: dispatch_calls (i + 1) k
  end.

(** The time a record took. *)
Definition elapsed_of (t : thread_info) : timespec :=
  timespec_diff_macro (end_ t) (start t).

(** The condition under which the second loop prints a record. *)
Definition emitted (sil : Z) (t : thread_info) : bool := (sil =? 0) || is_error t.

(** The calls of the second loop over the records [l], the first of them
    being worker [i]. *)
Fixpoint aggregate_calls (sil : Z) (i : Z) (l : list thread_info) : list call :=
  match l with
  | [] => []
  | t :: rest =>
      PthreadJoin i
        :: (if emitted sil t then [Stdout (report_line t (elapsed_of t))] else [])
        ++ aggregate_calls sil (i + 1) rest
  end.

(** The texts written to standard output among some calls, in order. *)
Fixpoint stdout_of (l : list call) : list string :=
  match l with
  | [] => []
  | Stdout text :: rest => text :: stdout_of rest
  | _ :: rest => stdout_of rest
  end.

(** A configuration that passes the check of [main]. *)
Definition valid (c : configuration) : Prop := validate_configuration c <> 0.

(** The calls of [main] before the first loop, after the second, and in
    [usage]. *)
Definition setup_calls (c : configuration) : list call :=
  [TimespecGet; Calloc (number_of_runs c); CurlGlobalInit].

Definition finish_calls (errs runs : Z) (elapsed : timespec) : list call :=
  [CurlGlobalCleanup; Free; TimespecGet; Stdout (summary_line errs runs elapsed)].

Definition usage_calls (argv : option string) : list call :=
  [Stdout ("Usage: " +:+ fmt_s argv
           +:+ " -u URL -r number of runs ][-s produce less output]" +:+ newline);
   Stdout ("Pipe through tee to create a logfile" +:+ newline);
   Stdout (tab +:+ fmt_s argv +:+ " -u http://localhost -r 30000 | tee full.log" +:+ newline);
   Stdout (tab +:+ fmt_s argv +:+ " -u http://localhost -r 30000 -s | tee error.log"
           +:+ newline)].

(** [config] after the first and after the second reading of the clock. *)
Definition started_config (w : world) (c : configuration) : configuration :=
  set_program_start (clock_program_start w) c.

Definition final_config (w : world) (c : configuration) : configuration :=
  set_program_end (clock_program_end w) (started_config w c).

(** The records of a run in which every thread is created. *)
Definition records_of (w : world) (c : configuration) : list thread_info :=
  dispatched w (config_url c) 0 (Z.to_nat (number_of_runs c)).

(** The wall-clock time of the whole run. *)
Definition program_elapsed (w : world) : timespec :=
  timespec_diff_macro (clock_program_end w) (clock_program_start w).

(** Every thread of the run can be created, and joined. *)
Definition creates_ok (w : world) (n : Z) : Prop :=
  forall j, 0 <= j < n -> pthread_create_result w j = 0.
Definition joins_ok (w : world) (n : Z) : Prop :=
  forall j, 0 <= j < n -> pthread_join_result w j = 0.

(** Two states in which the aggregator sees the same things. *)
Definition same_view (s s' : state) : Prop :=
  config s = config s' /\ threads s = threads s' /\ errors s = errors s'.

(** Three workers: one served with a 200, one whose connection is refused,
    one for which no request object can be built. *)
Definition served : Worker.answers :=
  {| Worker.clock_at_start := mk_timespec 5 900000000;
     Worker.curl_easy_init_ok := true;
     Worker.perform_result := 0;
     Worker.perform_error_buffer := EmptyString;
     Worker.info_total_time_t := 1234;
     Worker.info_response_code := 200;
     Worker.info_os_errno := 0;
     Worker.clock_at_end := mk_timespec 6 100000000 |}.

Definition refused : Worker.answers :=
  {| Worker.clock_at_start := mk_timespec 5 900000000;
     Worker.curl_easy_init_ok := true;
     Worker.perform_result := 7;
     Worker.perform_error_buffer := "Connection refused";
     Worker.info_total_time_t := 250;
     Worker.info_response_code := 0;
     Worker.info_os_errno := 111;
     Worker.clock_at_end := mk_timespec 5 900300000 |}.

Definition no_handle : Worker.answers :=
  {| Worker.clock_at_start := mk_timespec 5 900000000;
     Worker.curl_easy_init_ok := false;
     Worker.perform_result := 7;
     Worker.perform_error_buffer := "never written";
     Worker.info_total_time_t := 250;
     Worker.info_response_code := 500;
     Worker.info_os_errno := 111;
     Worker.clock_at_end := mk_timespec 5 900000100 |}.

(** A world with a working allocator, given what pthreads and libcurl do. *)
Definition a_world (create join : Z -> Z) (answers : Z -> Worker.answers) : world :=
  {| clock_program_start := mk_timespec 5 0;
     clock_program_end := mk_timespec 7 500;
     calloc_ok := true;
     pthread_create_result := create;
     pthread_create_id := fun i => 1000 + i;
     worker_answers := answers;
     pthread_join_result := join |}.

(** The configuration after [-u http://localhost -r runs], with or without
    [-s]. *)
Definition a_config (runs sil : Z) : configuration :=
  {| program_name := Some "./how_fast_is_server";
     config_url := Some "http://localhost";
     number_of_runs := runs;
     silent := sil;
     program_start := mk_timespec 0 0;
     program_end := mk_timespec 0 0 |}.

(** Worker 0 is served, worker 1 is refused, worker 2 gets no handle. *)
Definition mixed (i : Z) : Worker.answers :=
  if i =? 0 then served else if i =? 1 then refused else no_handle.

(** pthreads that always succeed, and that fail for worker [k] with the
    error number [en]. *)
Definition all_fine : Z -> Z := fun _ => 0.
Definition fails_at (k en : Z) : Z -> Z := fun i => if i =? k then en else 0.

(** A world in which every request is refused. *)
Definition all_refused : world := a_world all_fine all_fine (fun _ => refused).

(** The line of a record in the output. *)
Definition line_of (t : thread_info) : string := report_line t (elapsed_of t).

(** A world in which every request is served. *)
Definition all_served : world := a_world all_fine all_fine (fun _ => served).

(** A call that only writes to standard output. *)
Definition is_stdout (c : call) : bool :=
  match c with Stdout _ => true | _ => false end.

(** ** The rest of the file: the write callback and the option loop *)

(** [write_curl_data(data, size, nmemb, userp)]: the body is dropped, and
    [nmemb] is reported as taken. *)
Definition write_curl_data (data : string) (size nmemb : Z) (userp : unit) : Z := nmemb.

(** What [getopt(argc, argv, ":u:r:ols")] can answer before it answers -1:
    [u] and [r] with their argument in [optarg], the flags [o], [l] and
    [s], [':'] for an option that lacks its argument and ['?'] for an
    unknown option. *)
Inductive getopt_answer :=
| opt_u (optarg : string)
| opt_r (optarg : string)
| opt_o
| opt_l
| opt_s
| opt_colon
| opt_question.

Definition set_config_url (v : option string) (c : configuration) : configuration :=
  mk_configuration (program_name c) v (number_of_runs c) (silent c)
    (program_start c) (program_end c).
Definition set_number_of_runs (v : Z) (c : configuration) : configuration :=
  mk_configuration (program_name c) (config_url c) v (silent c)
    (program_start c) (program_end c).
Definition set_silent (v : Z) (c : configuration) : configuration :=
  mk_configuration (program_name c) (config_url c) (number_of_runs c) v
    (program_start c) (program_end c).

(** The [struct configuration] that [main] declares: the fields it does
    not name are zero. *)
Definition declared_config (argv0 : option string) : configuration :=
  {| program_name := argv0; config_url := None; number_of_runs := 0; silent := 0;
     program_start := mk_timespec 0 0; program_end := mk_timespec 0 0 |}.

(** The [switch] of the option loop. [strtoul] is the C library's, with
    its [unsigned long] result stored in a [long]. *)
Definition option_case (strtoul : string -> Z) (c : configuration) (a : getopt_answer)
  : configuration :=
  match a with
  | opt_u optarg => set_config_url (Some optarg) c
  | opt_r optarg => set_number_of_runs (to_long (strtoul optarg)) c
  | opt_s => set_silent 1 c
  | _ => c
  end.

(** The [while] loop over the answers of [getopt]. *)
Definition option_loop (strtoul : string -> Z) (answers : list getopt_answer)
  (c : configuration) : configuration :=
  fold_left (option_case strtoul) answers c.

(** [main] from its first line: declare [config], read the options, go on. *)
Definition main_argv (strtoul : string -> Z) (argv0 : option string)
  (answers : list getopt_answer) (w : world) : result Z * state :=
  main w (initial_state (option_loop strtoul answers (declared_config argv0))).

(** ** More measures for the statements *)

Definition is_opt_u (a : getopt_answer) : bool :=
  match a with opt_u _ => true | _ => false end.
Definition is_opt_r (a : getopt_answer) : bool :=
  match a with opt_r _ => true | _ => false end.
Definition is_opt_s (a : getopt_answer) : bool :=
  match a with opt_s => true | _ => false end.

(** A decimal digit. *)
Definition is_digit (a : ascii) : bool :=
  (48 <=? Z.of_nat (nat_of_ascii a)) && (Z.of_nat (nat_of_ascii a) <=? 57).

Fixpoint all_chars (p : ascii -> bool) (s : string) : bool :=
  match s with
  | EmptyString => true
  | String a rest => p a && all_chars p rest
  end.

(** How many calls of a kind a run has made. *)
Definition count_calls (p : call -> bool) (l : list call) : nat :=
  length (filter (fun x => p x = true) l).

Definition is_pthread_create (x : call) : bool :=
  match x with PthreadCreate _ => true | _ => false end.
Definition is_pthread_join (x : call) : bool :=
  match x with PthreadJoin _ => true | _ => false end.
Definition is_nanosleep (x : call) : bool :=
  match x with Nanosleep _ => true | _ => false end.
Definition is_teardown (x : call) : bool :=
  match x with CurlGlobalCleanup | Free => true | _ => false end.
Definition is_curl_global (x : call) : bool :=
  match x with CurlGlobalInit | CurlGlobalCleanup => true | _ => false end.

(** The calls of a worker on its libcurl handle. *)
Definition is_perform (x : Worker.call) : bool :=
  match x with Worker.CurlEasyPerform => true | _ => false end.
Definition is_cleanup (x : Worker.call) : bool :=
  match x with Worker.CurlEasyCleanup => true | _ => false end.
Definition is_stderr (x : Worker.call) : bool :=
  match x with Worker.Stderr _ => true | _ => false end.

(** How many calls of a kind a worker has made. *)
Definition count_worker_calls (p : Worker.call -> bool) (l : list Worker.call) : nat :=
  length (filter (fun x => p x = true) l).

(** The state in which [main] enters its first loop. *)
Definition entry_state (w : world) (c : configuration) : state :=
  mk_state (started_config w c)
    (if calloc_ok w && (0 <=? number_of_runs c)
     then Some (replicate (Z.to_nat (number_of_runs c)) zero_thread_info)
     else None)
    0 (mk_timespec 0 0) (mk_timespec 0 0) (setup_calls c).

(** A transfer that went through and brought back an HTTP 500. *)
Definition server_error : Worker.answers :=
  {| Worker.clock_at_start := mk_timespec 5 900000000;
     Worker.curl_easy_init_ok := true;
     Worker.perform_result := 0;
     Worker.perform_error_buffer := EmptyString;
     Worker.info_total_time_t := 800;
     Worker.info_response_code := 500;
     Worker.info_os_errno := 0;
     Worker.clock_at_end := mk_timespec 5 900900000 |}.

(** A C library [strtoul] on the few texts the sample runs use. *)
Definition sample_strtoul (s : string) : Z :=
  if String.eqb s "3" then 3
  else if String.eqb s "-1" then 18446744073709551615
  else 0.

(** * Part II: properties *)

(** ** Machine integers *)

Lemma to_int_id x : in_int x -> to_int x = x.
Proof.
  unfold in_int, INT_MIN, INT_MAX, to_int, wrap_signed. intros H.
  change (2 ^ (32 - 1)) with 2147483648. change (2 ^ 32) with 4294967296.
  rewrite Z.mod_small; lia.
Qed.

Lemma to_long_id x : in_long x -> to_long x = x.
Proof.
  unfold in_long, LONG_MIN, LONG_MAX, to_long, wrap_signed. intros H.
  change (2 ^ (64 - 1)) with 9223372036854775808.
  change (2 ^ 64) with 18446744073709551616.
  rewrite Z.mod_small; lia.
Qed.

Lemma to_int_range x : in_int (to_int x).
Proof.
  unfold in_int, INT_MIN, INT_MAX, to_int, wrap_signed.
  change (2 ^ (32 - 1)) with 2147483648. change (2 ^ 32) with 4294967296.
  pose proof (Z.mod_pos_bound (x + 2147483648) 4294967296). lia.
Qed.

(** Incrementing a wrapped counter is wrapping the incremented count. *)
Lemma to_int_succ x : to_int (to_int x + 1) = to_int (x + 1).
Proof.
  unfold to_int, wrap_signed.
  change (2 ^ (32 - 1)) with 2147483648. change (2 ^ 32) with 4294967296.
  f_equal.
  replace ((x + 2147483648) mod 4294967296 - 2147483648 + 1 + 2147483648)
    with ((x + 2147483648) mod 4294967296 + 1) by lia.
  replace (x + 1 + 2147483648) with ((x + 2147483648) + 1) by lia.
  rewrite <- (Zplus_mod_idemp_l (x + 2147483648) 1). reflexivity.
Qed.

Lemma to_int_idem x : to_int (to_int x) = to_int x.
Proof. apply to_int_id, to_int_range. Qed.

(** ** The elapsed-time subtraction *)

Example diff_borrow :
  timespec_diff_macro (mk_timespec 6 100000000) (mk_timespec 5 900000000)
  = mk_timespec 0 200000000.
Proof. reflexivity. Qed.

Example diff_no_borrow :
  timespec_diff_macro (mk_timespec 6 900000000) (mk_timespec 5 100000000)
  = mk_timespec 1 800000000.
Proof. reflexivity. Qed.

(** Where the seconds do not leave [time_t], the macro is the subtraction
    with borrow on the integers. *)
Lemma timespec_diff_macro_exact (a b : timespec) :
  nsec_ok a -> nsec_ok b ->
  in_long (tv_sec a - tv_sec b - 1) -> in_long (tv_sec a - tv_sec b) ->
  timespec_diff_macro a b =
    if tv_nsec a - tv_nsec b <? 0
    then mk_timespec (tv_sec a - tv_sec b - 1) (tv_nsec a - tv_nsec b + 1000000000)
    else mk_timespec (tv_sec a - tv_sec b) (tv_nsec a - tv_nsec b).
Proof.
  unfold nsec_ok, timespec_diff_macro. intros Ha Hb Hs1 Hs.
  assert (Hn : in_long (tv_nsec a - tv_nsec b))
    by (unfold in_long, LONG_MIN, LONG_MAX; lia).
  rewrite (to_long_id _ Hn), (to_long_id _ Hs).
  destruct (tv_nsec a - tv_nsec b <? 0) eqn:E; [| reflexivity].
  apply Z.ltb_lt in E.
  rewrite (to_long_id _ Hs1), to_long_id; [reflexivity |].
  unfold in_long, LONG_MIN, LONG_MAX; lia.
Qed.




(** ** The worker *)

Section WorkerFacts.

Variable a : Worker.answers.
Variable t : thread_info.

(** The calls of a worker whose request object was built. *)
Lemma run_calls_init_ok :
  Worker.curl_easy_init_ok a = true ->
  snd (Worker.run a t) =
    [Worker.TimespecGet Worker.StampStart; Worker.CurlEasyInit;
     Worker.CurlEasySetopt Worker.CURLOPT_ERRORBUFFER;
     Worker.CurlEasySetopt Worker.CURLOPT_WRITEFUNCTION;
     Worker.CurlEasySetopt (Worker.CURLOPT_URL (url t));
     Worker.CurlEasyPerform;
     Worker.CurlEasyGetinfo Worker.CURLINFO_TOTAL_TIME_T;
     Worker.CurlEasyGetinfo Worker.CURLINFO_RESPONSE_CODE;
     Worker.CurlEasyGetinfo Worker.CURLINFO_OS_ERRNO;
     Worker.CurlEasyCleanup;
     Worker.TimespecGet Worker.StampEnd].
Proof.
  intros Hok. unfold Worker.run, Worker.start_curl_run, Worker.bind,
    Worker.curl_easy_init, Worker.bind. cbn. rewrite Hok. reflexivity.
Qed.

(** The calls of a worker whose request object could not be built. *)
Lemma run_calls_init_failed :
  Worker.curl_easy_init_ok a = false ->
  snd (Worker.run a t) =
    [Worker.TimespecGet Worker.StampStart; Worker.CurlEasyInit;
     Worker.Stderr ("unable to initialize curl object for thread_number: "
                      +:+ fmt_ld (thread_num t));
     Worker.TimespecGet Worker.StampEnd].
Proof.
  intros Hok. unfold Worker.run, Worker.start_curl_run, Worker.bind,
    Worker.curl_easy_init, Worker.bind. cbn. rewrite Hok. reflexivity.
Qed.

(** The record of a worker whose request object was built. *)
Lemma run_record_init_ok :
  Worker.curl_easy_init_ok a = true ->
  fst (Worker.run a t) =
    {| thread_id := thread_id t; thread_num := thread_num t; url := url t;
       start := Worker.clock_at_start a; end_ := Worker.clock_at_end a;
       response_code := Worker.info_response_code a;
       os_error_code := Worker.info_os_errno a;
       curl_error_code := Worker.perform_result a;
       curl_error_string := Worker.perform_error_buffer a;
       curl_total := Worker.info_total_time_t a |}.
Proof.
  intros Hok. unfold Worker.run, Worker.start_curl_run, Worker.bind,
    Worker.curl_easy_init, Worker.bind. cbn. rewrite Hok. reflexivity.
Qed.

(** The record of a worker whose request object could not be built:
    only the two timestamps are written. *)
Lemma run_record_init_failed :
  Worker.curl_easy_init_ok a = false ->
  fst (Worker.run a t) = set_end (Worker.clock_at_end a)
                           (set_start (Worker.clock_at_start a) t).
Proof.
  intros Hok. unfold Worker.run, Worker.start_curl_run, Worker.bind,
    Worker.curl_easy_init, Worker.bind. cbn. rewrite Hok. reflexivity.
Qed.

(** The fields [main] sets before the thread starts are left alone. *)
Lemma run_keeps_identity :
  thread_num (fst (Worker.run a t)) = thread_num t /\
  thread_id (fst (Worker.run a t)) = thread_id t /\
  url (fst (Worker.run a t)) = url t.
Proof.
  destruct (Worker.curl_easy_init_ok a) eqn:Hok.
  - rewrite (run_record_init_ok Hok). auto.
  - rewrite (run_record_init_failed Hok). auto.
Qed.

End WorkerFacts.

(** C6. Whatever libcurl answers, a worker first reads the clock into
    [start], only then tries to build the request object, and its last
    call reads the clock into [end_]; this holds when the request
    completes, with or without a transport error, and when the request
    object could not be built. Between the two there is no other clock
    reading, so each field is written once, with the reading of its
    moment. *)
Theorem start_curl_run_brackets (a : Worker.answers) (t : thread_info) :
  exists between,
    snd (Worker.run a t) =
      Worker.TimespecGet Worker.StampStart :: Worker.CurlEasyInit
        :: between ++ [Worker.TimespecGet Worker.StampEnd] /\
    Forall (fun c => is_timespec_get c = false) between /\
    (Worker.CurlEasyInit ∉ between) /\
    start (fst (Worker.run a t)) = Worker.clock_at_start a /\
    end_ (fst (Worker.run a t)) = Worker.clock_at_end a.
Proof.
  destruct (Worker.curl_easy_init_ok a) eqn:Hok.
  - rewrite (run_calls_init_ok a t Hok), (run_record_init_ok a t Hok).
    exists [Worker.CurlEasySetopt Worker.CURLOPT_ERRORBUFFER;
            Worker.CurlEasySetopt Worker.CURLOPT_WRITEFUNCTION;
            Worker.CurlEasySetopt (Worker.CURLOPT_URL (url t));
            Worker.CurlEasyPerform;
            Worker.CurlEasyGetinfo Worker.CURLINFO_TOTAL_TIME_T;
            Worker.CurlEasyGetinfo Worker.CURLINFO_RESPONSE_CODE;
            Worker.CurlEasyGetinfo Worker.CURLINFO_OS_ERRNO;
            Worker.CurlEasyCleanup].
    split; [reflexivity |]. cbn.
    split; [repeat constructor |]. split; [| auto].
    intros Hin. repeat (apply elem_of_cons in Hin as [Hin | Hin]; [discriminate |]).
    by apply elem_of_nil in Hin.
  - rewrite (run_calls_init_failed a t Hok), (run_record_init_failed a t Hok).
    exists [Worker.Stderr ("unable to initialize curl object for thread_number: "
                             +:+ fmt_ld (thread_num t))].
    split; [reflexivity |]. cbn.
    split; [repeat constructor |]. split; [| auto].
    intros Hin. apply elem_of_cons in Hin as [Hin | Hin]; [discriminate |].
    by apply elem_of_nil in Hin.
Qed.

(** ** Printed text *)

Lemma append_nil (b : string) : EmptyString +:+ b = b.
Proof. reflexivity. Qed.

Lemma append_cons x (a b : string) : String x a +:+ b = String x (a +:+ b).
Proof. reflexivity. Qed.

Lemma append_assoc (a b c : string) : (a +:+ b) +:+ c = a +:+ (b +:+ c).
Proof.
  induction a as [| x a IH]; [reflexivity |].
  rewrite !append_cons. f_equal. exact IH.
Qed.

Lemma append_empty_r (a : string) : a +:+ EmptyString = a.
Proof.
  induction a as [| x a IH]; [reflexivity |].
  rewrite append_cons. f_equal. exact IH.
Qed.

Lemma count_char_app c (a b : string) :
  count_char c (a +:+ b) = (count_char c a + count_char c b)%nat.
Proof.
  induction a as [| x a IH]; [reflexivity |].
  rewrite append_cons. simpl. rewrite IH. lia.
Qed.

Lemma last_char_app (a b : string) :
  b <> EmptyString -> last_char (a +:+ b) = last_char b.
Proof.
  intros Hb. induction a as [| x a IH]; [reflexivity |].
  rewrite append_cons. simpl. rewrite IH.
  destruct (a +:+ b) eqn:E; [| reflexivity].
  destruct a; [rewrite append_nil in E; congruence | discriminate].
Qed.

Lemma last_char_snoc (a : string) c : last_char (a +:+ String c EmptyString) = Some c.
Proof. by rewrite last_char_app. Qed.

Lemma last_char_split (s : string) c :
  last_char s = Some c -> exists body, s = body +:+ String c EmptyString.
Proof.
  induction s as [| x s IH]; cbn; [discriminate |].
  destruct s as [| y s'].
  - intros [= ->]. by exists EmptyString.
  - intros H. destruct (IH H) as [body Hbody].
    exists (String x body). rewrite append_cons. by rewrite <- Hbody.
Qed.

Lemma last_char_counted (s : string) c :
  last_char s = Some c -> (0 < count_char c s)%nat.
Proof.
  intros H. destruct (last_char_split s c H) as [body ->].
  rewrite count_char_app. simpl. rewrite Ascii.eqb_refl. lia.
Qed.

Lemma count_char_uint (d : Decimal.uint) : count_char LF (NilEmpty.string_of_uint d) = O.
Proof. induction d; cbn; auto. Qed.

Lemma count_char_digits z : count_char LF (digits z) = O.
Proof.
  unfold digits, NilZero.string_of_uint.
  destruct (N.to_uint (Z.abs_N z)) eqn:E; try reflexivity;
    rewrite <- E; apply count_char_uint.
Qed.

Lemma count_char_zeros n : count_char LF (zeros n) = O.
Proof. induction n; cbn; auto. Qed.

Lemma count_char_fmt_0ld width z : count_char LF (fmt_0ld width z) = O.
Proof.
  unfold fmt_0ld. destruct (z <? 0);
    rewrite ?count_char_app, count_char_zeros, count_char_digits; reflexivity.
Qed.

Lemma count_char_fmt_ld z : count_char LF (fmt_ld z) = O.
Proof. apply count_char_fmt_0ld. Qed.

(** No number and no fixed text of the line holds a newline. *)
Lemma line_prefix_no_newline t elapsed : count_char LF (line_prefix t elapsed) = O.
Proof.
  unfold line_prefix.
  rewrite !count_char_app, !count_char_fmt_ld, !count_char_fmt_0ld. reflexivity.
Qed.

Lemma telemetry_line_split t elapsed nl :
  telemetry_line t elapsed nl = line_prefix t elapsed +:+ curl_error_string t +:+ nl.
Proof. unfold telemetry_line, line_prefix. by rewrite !append_assoc. Qed.

(** [strrchr] finds nothing exactly in the strings without the character. *)
Lemma strrchr_None (s : string) c : strrchr s c = None <-> count_char c s = O.
Proof.
  induction s as [| x s IH]; cbn; [tauto |].
  destruct (strrchr s c) eqn:E.
  - split; [discriminate |]. intros H.
    assert (Hs : count_char c s = O) by lia. apply IH in Hs. discriminate.
  - assert (Hs : count_char c s = O) by (by apply IH). rewrite Hs.
    destruct (Ascii.eqb x c); split; (discriminate || reflexivity || lia).
Qed.

(** The second loop adds a newline exactly when the error string has none. *)
Lemma line_end_spec (err : string) :
  line_end err = if decide (count_char LF err = O) then newline else EmptyString.
Proof.
  unfold line_end. destruct (strrchr err LF) eqn:E.
  - destruct (decide (count_char LF err = O)) as [H | H]; [| reflexivity].
    apply strrchr_None in H. congruence.
  - apply strrchr_None in E. by rewrite decide_True.
Qed.

Example fmt_ld_negative : fmt_ld (-12) = "-12".
Proof. reflexivity. Qed.

Example fmt_09ld_pads : fmt_0ld 9 200 = "000000200".
Proof. reflexivity. Qed.

Example fmt_06ld_sign_in_width : fmt_0ld 6 (-5) = "-00005".
Proof. reflexivity. Qed.

Example fmt_06ld_wide : fmt_0ld 6 12345678 = "12345678".
Proof. reflexivity. Qed.

Example report_line_success :
  report_line
    {| thread_id := 1; thread_num := 3; url := Some "http://localhost";
       start := mk_timespec 5 900000000; end_ := mk_timespec 6 100000000;
       response_code := 200; os_error_code := 0; curl_error_code := 0;
       curl_error_string := EmptyString; curl_total := 1234 |}
    (mk_timespec 0 200000000)
  = "Thread=3: response_code=200: seconds=0.200000000: curl_time_t=001234: os_error_code=0: curl_error_code=0: curl_error="
    +:+ newline.
Proof. reflexivity. Qed.

(** C7, as the code has it. For a record whose error string is one line
    [body], with or without a newline closing it, the line printed is the
    fixed fields, [body] and one newline: the same text whether the string
    carried the newline or not, a single line of output ending in exactly
    one newline. *)
Theorem report_line_one_line (t : thread_info) (elapsed : timespec) (body : string) :
  one_line_error (curl_error_string t) body ->
  report_line t elapsed = line_prefix t elapsed +:+ body +:+ newline /\
  single_line (report_line t elapsed) /\
  ends_in_one_newline (report_line t elapsed).
Proof.
  intros [Hbody Herr].
  assert (Hline : report_line t elapsed = line_prefix t elapsed +:+ body +:+ newline).
  { unfold report_line. rewrite telemetry_line_split, line_end_spec.
    destruct Herr as [-> | ->].
    - by rewrite decide_True.
    - rewrite decide_False, append_empty_r; [reflexivity |].
      rewrite count_char_app. cbn. lia. }
  split; [exact Hline |]. rewrite Hline.
  assert (Hcount : count_char LF (line_prefix t elapsed +:+ body) = O)
    by (rewrite count_char_app, line_prefix_no_newline, Hbody; reflexivity).
  split; [split |].
  - rewrite <- append_assoc, count_char_app, Hcount. reflexivity.
  - rewrite <- append_assoc. apply last_char_snoc.
  - exists (line_prefix t elapsed +:+ body). split; [by rewrite append_assoc |].
    intros Hlast. apply last_char_counted in Hlast. lia.
Qed.

(** A refused connection, reported without and with a closing newline. *)
Lemma report_line_one_line_witness :
  let t := set_curl_error_string ("Connection refused" +:+ newline)
             (set_curl_error_code 7 zero_thread_info) in
  report_line t (mk_timespec 0 1)
    = line_prefix t (mk_timespec 0 1) +:+ "Connection refused" +:+ newline /\
  single_line (report_line t (mk_timespec 0 1)) /\
  ends_in_one_newline (report_line t (mk_timespec 0 1)).
Proof.
  apply (report_line_one_line
           (set_curl_error_string ("Connection refused" +:+ newline)
              (set_curl_error_code 7 zero_thread_info))
           (mk_timespec 0 1) "Connection refused").
  split; [reflexivity | right; reflexivity].
Defined.

(** An error string with a newline inside breaks the one-line rule:
    [strrchr] finds it, no newline is added, and the line printed for the
    record ends in the middle of a line. *)
Lemma report_line_inner_newline_counterexample :
  let t := set_curl_error_string ("a" +:+ newline +:+ "b")
             (set_curl_error_code 7 zero_thread_info) in
  let line := report_line t (mk_timespec 0 1) in
  curl_error_string t <> EmptyString /\
  last_char line = Some "b"%char /\
  ~ ends_in_one_newline line /\
  ~ single_line line.
Proof.
  cbv zeta. split; [discriminate |].
  assert (Hlast : last_char
            (report_line (set_curl_error_string ("a" +:+ newline +:+ "b")
                            (set_curl_error_code 7 zero_thread_info))
               (mk_timespec 0 1)) = Some "b"%char) by reflexivity.
  split; [exact Hlast |]. split.
  - intros [body [Hline _]]. rewrite Hline in Hlast. unfold newline in Hlast.
    rewrite last_char_snoc in Hlast. discriminate.
  - intros [_ Hl]. rewrite Hl in Hlast. discriminate.
Qed.

(** Two lines of error text make two lines of output. *)
Example report_line_two_lines :
  count_char LF
    (report_line (set_curl_error_string ("a" +:+ newline +:+ "b" +:+ newline)
                    (set_curl_error_code 7 zero_thread_info))
       (mk_timespec 0 1)) = 2%nat.
Proof. reflexivity. Qed.

(** ** The monad *)

Lemma bind_done {A B} (m : M A) (f : A -> M B) s a s' :
  m s = (Done a, s') -> bind m f s = f a s'.
Proof. unfold bind. by intros ->. Qed.

Lemma bind_exited {A B} (m : M A) (f : A -> M B) s status s' :
  m s = (Exited status, s') -> bind m f s = (Exited status, s').
Proof. unfold bind. by intros ->. Qed.

Lemma bind_faulted {A B} (m : M A) (f : A -> M B) s s' :
  m s = (Faulted, s') -> bind m f s = (Faulted, s').
Proof. unfold bind. by intros ->. Qed.

Lemma for_loop_app (body : Z -> M unit) (n m : nat) (i : Z) s :
  for_loop (n + m) i body s =
  bind (for_loop n i body) (fun _ => for_loop m (i + Z.of_nat n) body) s.
Proof.
  revert i s. induction n as [| n IH]; intros i s.
  - cbn. by rewrite Z.add_0_r.
  - change (for_loop (S n + m) i body s)
      with (bind (body i) (fun _ => for_loop (n + m) (i + 1) body) s).
    change (for_loop (S n) i body)
      with (bind (body i) (fun _ => for_loop n (i + 1) body)).
    unfold bind.
    destruct (body i s) as [[[] | status |] s1]; try reflexivity.
    rewrite IH. unfold bind.
    replace (i + 1 + Z.of_nat n) with (i + Z.of_nat (S n)) by lia.
    reflexivity.
Qed.

(** ** The array *)

Lemma thread_at_ok (i : Z) s l t :
  threads s = Some l -> 0 <= i -> l !! Z.to_nat i = Some t ->
  thread_at i s = (Done t, s).
Proof.
  intros Hl Hi Ht. unfold thread_at. rewrite Hl, Ht.
  by destruct (Z.leb_spec 0 i); [| lia].
Qed.

Lemma update_thread_ok (i : Z) f s l t :
  threads s = Some l -> 0 <= i -> l !! Z.to_nat i = Some t ->
  update_thread i f s = (Done tt, set_threads (Some (<[Z.to_nat i := f t]> l)) s).
Proof.
  intros Hl Hi Ht. unfold update_thread.
  rewrite (bind_done _ _ _ _ _ (thread_at_ok i s l t Hl Hi Ht)).
  unfold modify. by rewrite Hl.
Qed.

(** ** One round of each loop *)

Ltac step H := rewrite (bind_done _ _ _ _ _ H); clear H.

(** A round of the first loop whose thread is created. *)
Lemma dispatch_body_ok (w : world) (i : Z) s l t :
  threads s = Some l -> 0 <= i -> l !! Z.to_nat i = Some t ->
  pthread_create_result w i = 0 ->
  dispatch_body w i s =
    (Done tt,
     mk_state (config s)
       (Some (<[Z.to_nat i := started w (config_url (config s)) i t]> l))
       (errors s) (elapsed_time s) (elapsed_program_time s)
       (calls s ++ [PthreadCreate i; Nanosleep WAIT_TIME_NANO])).
Proof.
  intros Hl Hi Ht Hok. unfold dispatch_body.
  pose proof (lookup_lt_Some _ _ _ Ht) as Hlen.
  pose proof (update_thread_ok i (set_thread_num (to_int i)) s l t Hl Hi Ht) as H1.
  step H1. unfold get at 1. unfold bind at 1.
  set (s1 := set_threads _ s).
  assert (H2 : update_thread i (set_url (config_url (config s1))) s1
               = (Done tt, set_threads
                    (Some (<[Z.to_nat i := set_url (config_url (config s))
                                             (set_thread_num (to_int i) t)]> l)) s1)).
  { erewrite update_thread_ok; [| reflexivity | exact Hi | by apply list_lookup_insert_eq].
    by rewrite list_insert_insert_eq. }
  step H2. set (s2 := set_threads _ s1).
  assert (H3 : pthread_create w i s2
               = (Done 0, set_threads
                    (Some (<[Z.to_nat i := started w (config_url (config s)) i t]> l))
                    (add_call (PthreadCreate i) s2))).
  { unfold pthread_create, did, modify, bind at 1. rewrite Hok. cbn [Z.eqb].
    erewrite bind_done;
      [| eapply update_thread_ok; [reflexivity | exact Hi | by apply list_lookup_insert_eq]].
    unfold ret. by rewrite list_insert_insert_eq. }
  step H3. cbn [Z.eqb negb when]. unfold ret at 1, bind, did, modify.
  unfold add_call, set_threads. cbn. by rewrite <- app_assoc.
Qed.

(** A round of the first loop whose thread cannot be created. *)
Lemma dispatch_body_fails (w : world) (i : Z) s l t :
  threads s = Some l -> 0 <= i -> l !! Z.to_nat i = Some t ->
  pthread_create_result w i <> 0 ->
  dispatch_body w i s =
    (Exited EXIT_FAILURE,
     mk_state (config s)
       (Some (<[Z.to_nat i := set_url (config_url (config s))
                                (set_thread_num (to_int i) t)]> l))
       (errors s) (elapsed_time s) (elapsed_program_time s)
       (calls s ++ [PthreadCreate i;
                    Perror (pthread_create_result w i)
                      ("pthread_create: thread_num " +:+ fmt_ld i)])).
Proof.
  intros Hl Hi Ht Hko. unfold dispatch_body.
  pose proof (lookup_lt_Some _ _ _ Ht) as Hlen.
  pose proof (update_thread_ok i (set_thread_num (to_int i)) s l t Hl Hi Ht) as H1.
  step H1. unfold get at 1. unfold bind at 1.
  set (s1 := set_threads _ s).
  assert (H2 : update_thread i (set_url (config_url (config s1))) s1
               = (Done tt, set_threads
                    (Some (<[Z.to_nat i := set_url (config_url (config s))
                                             (set_thread_num (to_int i) t)]> l)) s1)).
  { erewrite update_thread_ok; [| reflexivity | exact Hi | by apply list_lookup_insert_eq].
    by rewrite list_insert_insert_eq. }
  step H2. set (s2 := set_threads _ s1).
  assert (H3 : pthread_create w i s2
               = (Done (pthread_create_result w i), add_call (PthreadCreate i) s2)).
  { unfold pthread_create, did, modify, bind at 1.
    apply Z.eqb_neq in Hko. by rewrite Hko. }
  step H3. apply Z.eqb_neq in Hko. rewrite Hko. cbn [negb when].
  unfold handle_error_en, exit, bind, did, modify, add_call, set_threads. cbn.
  by rewrite <- app_assoc.
Qed.

(** A round of the second loop whose thread is joined. *)
Lemma aggregate_body_ok (w : world) (i : Z) s l t :
  threads s = Some l -> 0 <= i -> l !! Z.to_nat i = Some t ->
  pthread_join_result w i = 0 ->
  aggregate_body w i s =
    (Done tt,
     mk_state (config s) (Some l)
       (if is_error t then to_int (errors s + 1) else errors s)
       (elapsed_of t) (elapsed_program_time s)
       (calls s ++ PthreadJoin i
          :: (if emitted (silent (config s)) t
              then [Stdout (report_line t (elapsed_of t))] else []))).
Proof.
  intros Hl Hi Ht Hok. unfold aggregate_body.
  assert (H1 : pthread_join w i s = (Done 0, add_call (PthreadJoin i) s)).
  { unfold pthread_join. rewrite (bind_done _ _ _ _ _ (thread_at_ok i s l t Hl Hi Ht)).
    unfold did, modify, bind, ret. by rewrite Hok. }
  step H1. cbn [Z.eqb negb when]. unfold ret at 1. unfold bind at 1.
  set (s1 := add_call _ s).
  assert (H2 : thread_at i s1 = (Done t, s1)) by (by apply (thread_at_ok i s1 l t)).
  step H2. unfold emitted, is_error, report_line, elapsed_of.
  unfold modify, get, did, when, bind, ret, modify.
  destruct (curl_error_code t =? 0); cbn;
    destruct (silent (config s) =? 0); cbn;
    unfold add_call, set_errors, set_elapsed_time; cbn;
    rewrite <- ?app_assoc, ?Hl; reflexivity.
Qed.

(** A round of the second loop whose thread cannot be joined. *)
Lemma aggregate_body_fails (w : world) (i : Z) s l t :
  threads s = Some l -> 0 <= i -> l !! Z.to_nat i = Some t ->
  pthread_join_result w i <> 0 ->
  aggregate_body w i s =
    (Exited EXIT_FAILURE,
     mk_state (config s) (Some l) (errors s) (elapsed_time s) (elapsed_program_time s)
       (calls s ++ [PthreadJoin i;
                    Perror (pthread_join_result w i)
                      ("pthread_join: thread_num " +:+ fmt_ld i)])).
Proof.
  intros Hl Hi Ht Hko. unfold aggregate_body.
  assert (H1 : pthread_join w i s
               = (Done (pthread_join_result w i), add_call (PthreadJoin i) s)).
  { unfold pthread_join. rewrite (bind_done _ _ _ _ _ (thread_at_ok i s l t Hl Hi Ht)).
    reflexivity. }
  step H1. apply Z.eqb_neq in Hko. rewrite Hko. cbn [negb when].
  unfold handle_error_en, exit, bind, did, modify, add_call. cbn.
  by rewrite <- app_assoc, Hl.
Qed.

(** ** The loops *)

(** The first loop over [n] fresh elements, every thread created. *)
Lemma dispatch_loop_ok (w : world) (n : nat) :
  forall (pre post : list thread_info) s,
    threads s = Some (pre ++ replicate n zero_thread_info ++ post) ->
    (forall j, Z.of_nat (length pre) <= j < Z.of_nat (length pre) + Z.of_nat n ->
               pthread_create_result w j = 0) ->
    for_loop n (Z.of_nat (length pre)) (dispatch_body w) s =
      (Done tt,
       mk_state (config s)
         (Some (pre ++ dispatched w (config_url (config s)) (Z.of_nat (length pre)) n
                  ++ post))
         (errors s) (elapsed_time s) (elapsed_program_time s)
         (calls s ++ dispatch_calls (Z.of_nat (length pre)) n)).
Proof.
  induction n as [| n IH]; intros pre post s Hl Hok.
  - destruct s. cbn in *. subst. by rewrite app_nil_r.
  - cbn [for_loop].
    assert (Hat : (pre ++ zero_thread_info :: replicate n zero_thread_info ++ post)
                    !! Z.to_nat (Z.of_nat (length pre)) = Some zero_thread_info)
      by (rewrite Nat2Z.id; by apply list_lookup_middle).
    erewrite bind_done;
      [| apply (dispatch_body_ok w _ s _ zero_thread_info Hl); [lia | exact Hat | apply Hok; lia]].
    set (x := started w (config_url (config s)) (Z.of_nat (length pre)) zero_thread_info).
    set (s1 := mk_state _ _ _ _ _ _).
    assert (Hl1 : threads s1 = Some ((pre ++ [x]) ++ replicate n zero_thread_info ++ post)).
    { unfold s1. cbn. f_equal. rewrite Nat2Z.id.
      replace (length pre) with (length pre + 0)%nat at 1 by lia.
      rewrite insert_app_r. cbn. by rewrite <- app_assoc. }
    assert (Hi1 : Z.of_nat (length pre) + 1 = Z.of_nat (length (pre ++ [x])))
      by (rewrite length_app; cbn; lia).
    rewrite Hi1, (IH (pre ++ [x]) post s1 Hl1).
    + unfold s1. cbn. rewrite <- Hi1, <- !app_assoc. reflexivity.
    + intros j Hj. apply Hok. lia.
Qed.

(** The second loop over the records [mid], every thread joined. *)
Lemma aggregate_loop_ok (w : world) (mid : list thread_info) :
  forall (pre post : list thread_info) s e0,
    threads s = Some (pre ++ mid ++ post) ->
    errors s = to_int e0 ->
    (forall j, Z.of_nat (length pre) <= j < Z.of_nat (length pre) + Z.of_nat (length mid) ->
               pthread_join_result w j = 0) ->
    exists et,
      for_loop (length mid) (Z.of_nat (length pre)) (aggregate_body w) s =
        (Done tt,
         mk_state (config s) (threads s) (to_int (e0 + count_errors mid)) et
           (elapsed_program_time s)
           (calls s ++ aggregate_calls (silent (config s)) (Z.of_nat (length pre)) mid)).
Proof.
  induction mid as [| t mid IH]; intros pre post s e0 Hl He Hok.
  - exists (elapsed_time s). destruct s. cbn in *. subst.
    by rewrite app_nil_r, Z.add_0_r.
  - cbn [for_loop length].
    assert (Hat : (pre ++ t :: mid ++ post) !! Z.to_nat (Z.of_nat (length pre)) = Some t)
      by (rewrite Nat2Z.id; by apply list_lookup_middle).
    erewrite bind_done;
      [| apply (aggregate_body_ok w _ s _ t Hl); [lia | exact Hat | apply Hok; cbn; lia]].
    set (s1 := mk_state _ _ _ _ _ _).
    assert (Hl1 : threads s1 = Some ((pre ++ [t]) ++ mid ++ post))
      by (unfold s1; cbn; by rewrite <- app_assoc).
    assert (Hi1 : Z.of_nat (length pre) + 1 = Z.of_nat (length (pre ++ [t])))
      by (rewrite length_app; cbn; lia).
    assert (He1 : errors s1 = to_int (e0 + (if is_error t then 1 else 0))).
    { unfold s1. cbn. rewrite He. destruct (is_error t).
      - apply to_int_succ.
      - by rewrite Z.add_0_r. }
    destruct (IH (pre ++ [t]) post s1 _ Hl1 He1) as [et Hloop].
    { intros j Hj. apply Hok. cbn. lia. }
    exists et. rewrite Hi1, Hloop. unfold s1. cbn. rewrite <- Hi1, Hl.
    f_equal. f_equal.
    + f_equal. unfold count_errors. rewrite filter_cons.
      destruct (is_error t); [rewrite decide_True by done | rewrite decide_False by done];
        cbn [length]; lia.
    + rewrite <- !app_assoc. reflexivity.
Qed.

Lemma length_dispatched (w : world) u (n : nat) : forall i, length (dispatched w u i n) = n.
Proof. induction n as [| n IH]; intros i; cbn; [reflexivity | by rewrite IH]. Qed.

(** The first loop stops at the first thread that cannot be created. *)
Lemma dispatch_loop_stops (w : world) (k m : nat) s :
  threads s = Some (replicate (k + S m) zero_thread_info) ->
  (forall j, 0 <= j < Z.of_nat k -> pthread_create_result w j = 0) ->
  pthread_create_result w (Z.of_nat k) <> 0 ->
  for_loop (k + S m) 0 (dispatch_body w) s =
    (Exited EXIT_FAILURE,
     mk_state (config s)
       (Some (dispatched w (config_url (config s)) 0 k
                ++ set_url (config_url (config s))
                     (set_thread_num (to_int (Z.of_nat k)) zero_thread_info)
                :: replicate m zero_thread_info))
       (errors s) (elapsed_time s) (elapsed_program_time s)
       (calls s ++ dispatch_calls 0 k
          ++ [PthreadCreate (Z.of_nat k);
              Perror (pthread_create_result w (Z.of_nat k))
                ("pthread_create: thread_num " +:+ fmt_ld (Z.of_nat k))])).
Proof.
  intros Hl Hok Hko. rewrite for_loop_app.
  rewrite replicate_add in Hl.
  erewrite bind_done;
    [| apply (dispatch_loop_ok w k [] _ s Hl); intros j Hj; apply Hok; cbn in Hj; lia].
  cbn [app length for_loop]. change (Z.of_nat 0) with 0. rewrite Z.add_0_l.
  set (s1 := mk_state _ _ _ _ _ _).
  rewrite (bind_exited _ _ _ _ _
             (dispatch_body_fails w (Z.of_nat k) s1
                (dispatched w (config_url (config s)) 0 k
                   ++ replicate (S m) zero_thread_info)
                zero_thread_info eq_refl (Nat2Z.is_nonneg k)
                ltac:(rewrite Nat2Z.id; apply list_lookup_middle;
                      by rewrite length_dispatched)
                Hko)).
  unfold s1. cbn. rewrite Nat2Z.id.
  rewrite insert_app_r_alt by (rewrite length_dispatched; lia).
  rewrite length_dispatched, Nat.sub_diag. cbn. by rewrite <- app_assoc.
Qed.

(** The second loop stops at the first thread that cannot be joined. *)
Lemma aggregate_loop_stops (w : world) (pre post : list thread_info) t s e0 :
  threads s = Some (pre ++ t :: post) ->
  errors s = to_int e0 ->
  (forall j, 0 <= j < Z.of_nat (length pre) -> pthread_join_result w j = 0) ->
  pthread_join_result w (Z.of_nat (length pre)) <> 0 ->
  exists et,
    for_loop (length pre + S (length post)) 0 (aggregate_body w) s =
      (Exited EXIT_FAILURE,
       mk_state (config s) (threads s) (to_int (e0 + count_errors pre)) et
         (elapsed_program_time s)
         (calls s ++ aggregate_calls (silent (config s)) 0 pre
            ++ [PthreadJoin (Z.of_nat (length pre));
                Perror (pthread_join_result w (Z.of_nat (length pre)))
                  ("pthread_join: thread_num " +:+ fmt_ld (Z.of_nat (length pre)))])).
Proof.
  intros Hl He Hok Hko. rewrite for_loop_app.
  destruct (aggregate_loop_ok w pre [] (t :: post) s e0 Hl He) as [et Hloop].
  { intros j Hj. apply Hok. cbn in Hj. lia. }
  exists et. cbn [length] in Hloop. change (Z.of_nat 0) with 0 in Hloop.
  rewrite (bind_done _ _ _ _ _ Hloop).
  cbn [for_loop]. rewrite Z.add_0_l. set (s1 := mk_state _ _ _ _ _ _).
  rewrite (bind_exited _ _ _ _ _
             (aggregate_body_fails w (Z.of_nat (length pre)) s1 (pre ++ t :: post) t
                Hl (Nat2Z.is_nonneg _)
                ltac:(rewrite Nat2Z.id; by apply list_lookup_middle)
                Hko)).
  unfold s1. cbn. rewrite Hl. by rewrite <- app_assoc.
Qed.

(** ** Whole runs *)

Lemma validate_configuration_spec (c : configuration) :
  validate_configuration c = 0 <->
  program_name c = None \/ config_url c = None \/ number_of_runs c = 0.
Proof.
  unfold validate_configuration.
  destruct (program_name c) as [p |], (config_url c) as [u |];
    destruct (Z.eqb_spec (number_of_runs c) 0) as [Hn | Hn]; cbn;
    split; intros H; try discriminate; try tauto; try lia;
    destruct H as [H | [H | H]]; congruence.
Qed.

(** A configuration that passes the check reaches the first loop with a
    fresh array, when the allocation succeeds. *)
Lemma main_after_setup (w : world) (c : configuration) :
  valid c -> calloc_ok w = true -> 0 <= number_of_runs c ->
  main w (initial_state c) =
    bind (dispatch w) (fun _ => bind (aggregate w) (fun _ => finish w))
      (mk_state (started_config w c)
         (Some (replicate (Z.to_nat (number_of_runs c)) zero_thread_info))
         0 (mk_timespec 0 0) (mk_timespec 0 0) (setup_calls c)).
Proof.
  intros Hv Hc Hn. unfold main, check_configuration.
  unfold bind at 1. unfold bind at 1. unfold get at 1.
  cbn [initial_state config].
  apply Z.eqb_neq in Hv. rewrite Hv. cbn [when ret].
  unfold bind at 1. unfold setup, calloc, did, modify, get, bind at 1. cbn.
  rewrite Hc. destruct (Z.leb_spec 0 (number_of_runs c)); [| lia]. reflexivity.
Qed.

(** A configuration that fails the check prints the usage and exits. *)
Lemma main_usage (w : world) (c : configuration) :
  validate_configuration c = 0 ->
  main w (initial_state c) =
    (Exited 1,
     mk_state c None 0 (mk_timespec 0 0) (mk_timespec 0 0)
       (usage_calls (program_name c))).
Proof.
  intros Hv. unfold main, check_configuration.
  unfold bind at 1. unfold bind at 1. unfold get at 1.
  cbn [initial_state config]. rewrite Hv. reflexivity.
Qed.

(** A run in which the array is allocated and every thread is created and
    joined goes to its end, whatever the requests of the workers did. *)
Lemma main_completes (w : world) (c : configuration) :
  valid c -> calloc_ok w = true -> 0 <= number_of_runs c ->
  creates_ok w (number_of_runs c) -> joins_ok w (number_of_runs c) ->
  exists et,
    main w (initial_state c) =
      (Done 0,
       mk_state (final_config w c) (Some (records_of w c))
         (to_int (count_errors (records_of w c))) et (program_elapsed w)
         (setup_calls c
            ++ dispatch_calls 0 (Z.to_nat (number_of_runs c))
            ++ aggregate_calls (silent c) 0 (records_of w c)
            ++ finish_calls (to_int (count_errors (records_of w c)))
                 (number_of_runs c) (program_elapsed w))).
Proof.
  intros Hv Hc Hn Hcr Hjo. rewrite (main_after_setup w c Hv Hc Hn).
  set (s0 := mk_state _ _ _ _ _ _).
  assert (Hd : dispatch w s0 =
               (Done tt,
                mk_state (started_config w c) (Some (records_of w c)) 0
                  (mk_timespec 0 0) (mk_timespec 0 0)
                  (setup_calls c ++ dispatch_calls 0 (Z.to_nat (number_of_runs c))))).
  { unfold dispatch, get, bind at 1. cbn [s0 config started_config set_program_start number_of_runs].
    pose proof (dispatch_loop_ok w (Z.to_nat (number_of_runs c)) [] [] s0) as Hloop.
    change (Z.of_nat (length [])) with 0 in Hloop. rewrite Hloop.
    - unfold s0, records_of. cbn. by rewrite app_nil_r.
    - unfold s0. cbn. by rewrite app_nil_r.
    - intros j Hj. apply Hcr. lia. }
  step Hd. set (s1 := mk_state _ _ _ _ _ _).
  destruct (aggregate_loop_ok w (records_of w c) [] [] (set_errors 0 s1) 0) as [et Ha].
  { unfold s1. cbn. by rewrite app_nil_r. }
  { reflexivity. }
  { intros j Hj. apply Hjo. unfold records_of in Hj. rewrite length_dispatched in Hj.
    change (Z.of_nat (length [])) with 0 in Hj. lia. }
  change (Z.of_nat (length [])) with 0 in Ha.
  exists et.
  assert (Hagg : aggregate w s1 =
                 (Done tt,
                  mk_state (started_config w c) (Some (records_of w c))
                    (to_int (count_errors (records_of w c))) et (mk_timespec 0 0)
                    (setup_calls c ++ dispatch_calls 0 (Z.to_nat (number_of_runs c))
                       ++ aggregate_calls (silent c) 0 (records_of w c)))).
  { unfold aggregate, modify, get, bind at 1. unfold bind at 1.
    cbn [s1 config started_config set_program_start number_of_runs set_errors].
    unfold records_of in Ha at 1. rewrite length_dispatched in Ha.
    rewrite Ha. unfold s1. cbn. by rewrite Z.add_0_l. }
  step Hagg. unfold finish, did, modify, get, printf, did, modify, ret, bind. cbn.
  unfold final_config, started_config, program_elapsed, finish_calls, add_call. cbn.
  by rewrite <- !app_assoc.
Qed.

Lemma dispatched_lookup (w : world) u (n : nat) :
  forall (i : Z) (j : nat),
    (j < n)%nat ->
    dispatched w u i n !! j = Some (started w u (i + Z.of_nat j) zero_thread_info).
Proof.
  induction n as [| n IH]; intros i j Hj; [lia |].
  destruct j as [| j]; cbn [dispatched].
  - cbn. by rewrite Z.add_0_r.
  - change ((?x :: ?l) !! S j) with (l !! j). rewrite IH by lia.
    do 2 f_equal. lia.
Qed.

(** Record [i] of a run, for an ordinal [i] of the run. *)
Lemma records_of_lookup (w : world) (c : configuration) (i : Z) :
  0 <= i < number_of_runs c ->
  records_of w c !! Z.to_nat i = Some (started w (config_url c) i zero_thread_info).
Proof.
  intros Hi. unfold records_of. rewrite dispatched_lookup by lia.
  do 2 f_equal. lia.
Qed.

Lemma length_records_of (w : world) (c : configuration) :
  0 <= number_of_runs c -> Z.of_nat (length (records_of w c)) = number_of_runs c.
Proof. intros Hn. unfold records_of. rewrite length_dispatched. lia. Qed.

(** A run stops at the first thread that cannot be created. *)
Lemma main_create_aborts (w : world) (c : configuration) (k : Z) :
  valid c -> calloc_ok w = true -> 0 <= k < number_of_runs c ->
  creates_ok w k -> pthread_create_result w k <> 0 ->
  main w (initial_state c) =
    (Exited EXIT_FAILURE,
     mk_state (started_config w c)
       (Some (dispatched w (config_url c) 0 (Z.to_nat k)
                ++ set_url (config_url c) (set_thread_num (to_int k) zero_thread_info)
                :: replicate (Z.to_nat (number_of_runs c - k - 1)) zero_thread_info))
       0 (mk_timespec 0 0) (mk_timespec 0 0)
       (setup_calls c ++ dispatch_calls 0 (Z.to_nat k)
          ++ [PthreadCreate k;
              Perror (pthread_create_result w k)
                ("pthread_create: thread_num " +:+ fmt_ld k)])).
Proof.
  intros Hv Hc Hk Hcr Hko. rewrite (main_after_setup w c Hv Hc) by lia.
  set (s0 := mk_state _ _ _ _ _ _).
  unfold dispatch, get. unfold bind at 1. unfold bind at 1.
  cbn [s0 config started_config set_program_start number_of_runs].
  assert (Hsplit : Z.to_nat (number_of_runs c)
                   = (Z.to_nat k + S (Z.to_nat (number_of_runs c - k - 1)))%nat) by lia.
  rewrite Hsplit.
  rewrite (dispatch_loop_stops w (Z.to_nat k) (Z.to_nat (number_of_runs c - k - 1)) s0).
  - unfold s0. cbn. rewrite Z2Nat.id by lia. reflexivity.
  - unfold s0. cbn. by rewrite Hsplit.
  - intros j Hj. apply Hcr. lia.
  - rewrite Z2Nat.id by lia. exact Hko.
Qed.

(** A run stops at the first thread that cannot be joined. *)
Lemma main_join_aborts (w : world) (c : configuration) (k : Z) :
  valid c -> calloc_ok w = true -> 0 <= k < number_of_runs c ->
  creates_ok w (number_of_runs c) -> joins_ok w k -> pthread_join_result w k <> 0 ->
  exists et,
    main w (initial_state c) =
      (Exited EXIT_FAILURE,
       mk_state (started_config w c) (Some (records_of w c))
         (to_int (count_errors (take (Z.to_nat k) (records_of w c)))) et
         (mk_timespec 0 0)
         (setup_calls c ++ dispatch_calls 0 (Z.to_nat (number_of_runs c))
            ++ aggregate_calls (silent c) 0 (take (Z.to_nat k) (records_of w c))
            ++ [PthreadJoin k;
                Perror (pthread_join_result w k)
                  ("pthread_join: thread_num " +:+ fmt_ld k)])).
Proof.
  intros Hv Hc Hk Hcr Hjo Hko. rewrite (main_after_setup w c Hv Hc) by lia.
  set (s0 := mk_state _ _ _ _ _ _).
  assert (Hd : dispatch w s0 =
               (Done tt,
                mk_state (started_config w c) (Some (records_of w c)) 0
                  (mk_timespec 0 0) (mk_timespec 0 0)
                  (setup_calls c ++ dispatch_calls 0 (Z.to_nat (number_of_runs c))))).
  { unfold dispatch, get, bind at 1.
    cbn [s0 config started_config set_program_start number_of_runs].
    pose proof (dispatch_loop_ok w (Z.to_nat (number_of_runs c)) [] [] s0) as Hloop.
    change (Z.of_nat (length [])) with 0 in Hloop. rewrite Hloop.
    - unfold s0, records_of. cbn. by rewrite app_nil_r.
    - unfold s0. cbn. by rewrite app_nil_r.
    - intros j Hj. apply Hcr. lia. }
  step Hd. set (s1 := mk_state _ _ _ _ _ _).
  pose proof (records_of_lookup w c k Hk) as Hat.
  set (t := started w (config_url c) k zero_thread_info) in Hat.
  pose proof (take_drop_middle _ _ _ Hat) as Hmid.
  assert (Hlen : length (take (Z.to_nat k) (records_of w c)) = Z.to_nat k).
  { rewrite length_take. unfold records_of. rewrite length_dispatched. lia. }
  destruct (aggregate_loop_stops w (take (Z.to_nat k) (records_of w c))
              (drop (S (Z.to_nat k)) (records_of w c)) t (set_errors 0 s1) 0)
    as [et Ha].
  { unfold s1. cbn. by rewrite Hmid. }
  { reflexivity. }
  { intros j Hj. apply Hjo. lia. }
  { rewrite Hlen, Z2Nat.id by lia. exact Hko. }
  exists et.
  assert (Hagg : aggregate w s1
                 = for_loop (Z.to_nat (number_of_runs c)) 0 (aggregate_body w)
                     (set_errors 0 s1)) by reflexivity.
  assert (Hsplit : Z.to_nat (number_of_runs c)
                   = (length (take (Z.to_nat k) (records_of w c))
                      + S (length (drop (S (Z.to_nat k)) (records_of w c))))%nat).
  { rewrite Hlen, length_drop. unfold records_of. rewrite length_dispatched. lia. }
  rewrite Hsplit in Hagg. rewrite Ha in Hagg.
  rewrite (bind_exited _ _ _ _ _ Hagg).
  rewrite Hlen, Z2Nat.id, Z.add_0_l by lia.
  unfold s1. cbn. reflexivity.
Qed.

(** ** The aggregator reads, and writes only its own variables *)

Lemma aggregate_body_view (w : world) (i : Z) s s' :
  same_view s s' ->
  fst (aggregate_body w i s) = fst (aggregate_body w i s') /\
  same_view (snd (aggregate_body w i s)) (snd (aggregate_body w i s')) /\
  config (snd (aggregate_body w i s)) = config s /\
  threads (snd (aggregate_body w i s)) = threads s.
Proof.
  intros (Hc & Ht & He). unfold same_view.
  destruct s as [c th er el ep ca], s' as [c' th' er' el' ep' ca'].
  cbn in Hc, Ht, He. subst c' th' er'.
  unfold aggregate_body, pthread_join, thread_at, handle_error_en, when, exit,
    did, modify, get, ret, bind. cbn.
  destruct th as [l |]; cbn; [| auto].
  destruct (l !! Z.to_nat i) as [t |] eqn:Hat; cbn; [| auto].
  destruct (0 <=? i); cbn; [| auto].
  destruct (pthread_join_result w i =? 0); cbn; [| auto].
  rewrite Hat. cbn.
  destruct (curl_error_code t =? 0); cbn;
    destruct (silent c =? 0); cbn; auto.
Qed.

Lemma aggregate_loop_view (w : world) (n : nat) :
  forall (i : Z) s s',
    same_view s s' ->
    fst (for_loop n i (aggregate_body w) s) = fst (for_loop n i (aggregate_body w) s') /\
    same_view (snd (for_loop n i (aggregate_body w) s))
              (snd (for_loop n i (aggregate_body w) s')) /\
    config (snd (for_loop n i (aggregate_body w) s)) = config s /\
    threads (snd (for_loop n i (aggregate_body w) s)) = threads s.
Proof.
  induction n as [| n IH]; intros i s s' Hv.
  - cbn. destruct Hv as (? & ? & ?). unfold same_view. auto.
  - cbn [for_loop]. unfold bind.
    destruct (aggregate_body_view w i s s' Hv) as (Hr & Hv1 & Hc1 & Ht1).
    destruct (aggregate_body w i s) as [r1 s1], (aggregate_body w i s') as [r1' s1'].
    cbn in Hr, Hv1, Hc1, Ht1. subst r1'.
    destruct r1 as [[] | status |]; cbn [fst snd]; auto.
    destruct (IH (i + 1) s1 s1' Hv1) as (Hr2 & Hv2 & Hc2 & Ht2).
    split; [exact Hr2 |]. split; [exact Hv2 |].
    split; [by rewrite Hc2 | by rewrite Ht2].
Qed.

(** The variables and the array as the aggregator leaves them. *)
Lemma aggregate_view (w : world) s s' :
  config s = config s' -> threads s = threads s' ->
  fst (aggregate w s) = fst (aggregate w s') /\
  same_view (snd (aggregate w s)) (snd (aggregate w s')) /\
  config (snd (aggregate w s)) = config s /\
  threads (snd (aggregate w s)) = threads s.
Proof.
  intros Hc Ht.
  assert (Hv : same_view (set_errors 0 s) (set_errors 0 s'))
    by (unfold same_view; cbn; auto).
  assert (Hagg : forall x, aggregate w x
                   = for_loop (Z.to_nat (number_of_runs (config x))) 0 (aggregate_body w)
                       (set_errors 0 x)) by reflexivity.
  rewrite !Hagg, <- Hc.
  exact (aggregate_loop_view w _ 0 _ _ Hv).
Qed.

(** C9. Running the aggregation a second time, over the records the first
    run leaves, gives the same summary (error count, number of runs, total
    elapsed time) and ends the same way, for the first run leaves the
    records and the configuration as it found them. *)
Theorem aggregate_idempotent (w : world) (s : state) :
  let once := aggregate w s in
  let twice := aggregate w (snd once) in
  threads (snd once) = threads s /\
  fst twice = fst once /\
  run_summary (snd twice) = run_summary (snd once).
Proof.
  cbv zeta.
  destruct (aggregate_view w s s eq_refl eq_refl) as (_ & _ & Hc & Ht).
  destruct (aggregate_view w (snd (aggregate w s)) s Hc Ht) as (Hr & Hv & _ & _).
  destruct Hv as (Hc2 & _ & He2).
  split; [exact Ht |]. split; [exact Hr |].
  unfold run_summary. by rewrite Hc2, He2.
Qed.

(** ** Sample runs *)

Example silent_run :
  main (a_world all_fine all_fine mixed) (initial_state (a_config 3 1)) =
    (Done 0,
     {| config := {| program_name := Some "./how_fast_is_server";
                     config_url := Some "http://localhost";
                     number_of_runs := 3; silent := 1;
                     program_start := mk_timespec 5 0;
                     program_end := mk_timespec 7 500 |};
        threads := Some
          [ {| thread_id := 1000; thread_num := 0; url := Some "http://localhost";
               start := mk_timespec 5 900000000; end_ := mk_timespec 6 100000000;
               response_code := 200; os_error_code := 0; curl_error_code := 0;
               curl_error_string := EmptyString; curl_total := 1234 |};
            {| thread_id := 1001; thread_num := 1; url := Some "http://localhost";
               start := mk_timespec 5 900000000; end_ := mk_timespec 5 900300000;
               response_code := 0; os_error_code := 111; curl_error_code := 7;
               curl_error_string := "Connection refused"; curl_total := 250 |};
            {| thread_id := 1002; thread_num := 2; url := Some "http://localhost";
               start := mk_timespec 5 900000000; end_ := mk_timespec 5 900000100;
               response_code := 0; os_error_code := 0; curl_error_code := 0;
               curl_error_string := EmptyString; curl_total := 0 |} ];
        errors := 1;
        elapsed_time := mk_timespec 0 100;
        elapsed_program_time := mk_timespec 2 500;
        calls :=
          [ TimespecGet; Calloc 3; CurlGlobalInit;
            PthreadCreate 0; Nanosleep 150000;
            PthreadCreate 1; Nanosleep 150000;
            PthreadCreate 2; Nanosleep 150000;
            PthreadJoin 0;
            PthreadJoin 1;
            Stdout ("Thread=1: response_code=0: seconds=0.000300000: curl_time_t=000250: os_error_code=111: curl_error_code=7: curl_error=Connection refused" +:+ newline);
            PthreadJoin 2;
            CurlGlobalCleanup; Free; TimespecGet;
            Stdout ("1 errors out of 3 runs in 2.000000500 real seconds" +:+ newline) ] |}).
Proof. vm_compute. reflexivity. Qed.

Example verbose_run_output :
  stdout_of (calls (snd (main (a_world all_fine all_fine mixed)
                           (initial_state (a_config 3 0))))) =
    [ "Thread=0: response_code=200: seconds=0.200000000: curl_time_t=001234: os_error_code=0: curl_error_code=0: curl_error=" +:+ newline;
      "Thread=1: response_code=0: seconds=0.000300000: curl_time_t=000250: os_error_code=111: curl_error_code=7: curl_error=Connection refused" +:+ newline;
      "Thread=2: response_code=0: seconds=0.000000100: curl_time_t=000000: os_error_code=0: curl_error_code=0: curl_error=" +:+ newline;
      "1 errors out of 3 runs in 2.000000500 real seconds" +:+ newline ].
Proof. vm_compute. reflexivity. Qed.

Example create_failure_run :
  main (a_world (fails_at 1 11) all_fine mixed) (initial_state (a_config 3 0)) =
    (Exited 1,
     {| config := {| program_name := Some "./how_fast_is_server";
                     config_url := Some "http://localhost";
                     number_of_runs := 3; silent := 0;
                     program_start := mk_timespec 5 0;
                     program_end := mk_timespec 0 0 |};
        threads := Some
          [ {| thread_id := 1000; thread_num := 0; url := Some "http://localhost";
               start := mk_timespec 5 900000000; end_ := mk_timespec 6 100000000;
               response_code := 200; os_error_code := 0; curl_error_code := 0;
               curl_error_string := EmptyString; curl_total := 1234 |};
            {| thread_id := 0; thread_num := 1; url := Some "http://localhost";
               start := mk_timespec 0 0; end_ := mk_timespec 0 0;
               response_code := 0; os_error_code := 0; curl_error_code := 0;
               curl_error_string := EmptyString; curl_total := 0 |};
            zero_thread_info ];
        errors := 0;
        elapsed_time := mk_timespec 0 0;
        elapsed_program_time := mk_timespec 0 0;
        calls :=
          [ TimespecGet; Calloc 3; CurlGlobalInit;
            PthreadCreate 0; Nanosleep 150000;
            PthreadCreate 1; Perror 11 "pthread_create: thread_num 1" ] |}).
Proof. vm_compute. reflexivity. Qed.

Example no_array_run :
  fst (main {| clock_program_start := mk_timespec 5 0;
               clock_program_end := mk_timespec 7 500;
               calloc_ok := false;
               pthread_create_result := all_fine;
               pthread_create_id := fun i => i;
               worker_answers := mixed;
               pthread_join_result := all_fine |}
         (initial_state (a_config 3 0))) = Faulted.
Proof. vm_compute. reflexivity. Qed.

(** ** The records and the output of a run *)

Lemma started_identity (w : world) u (i : Z) t :
  thread_num (started w u i t) = to_int i /\
  thread_id (started w u i t) = pthread_create_id w i /\
  url (started w u i t) = u.
Proof. unfold started. by destruct (run_keeps_identity (worker_answers w i)
                                      (set_thread_id (pthread_create_id w i)
                                         (set_url u (set_thread_num (to_int i) t)))). Qed.

(** The record of a worker whose request was made. *)
Lemma started_error_code (w : world) u (i : Z) t :
  Worker.curl_easy_init_ok (worker_answers w i) = true ->
  curl_error_code (started w u i t) = Worker.perform_result (worker_answers w i).
Proof. intros Hok. unfold started. by rewrite run_record_init_ok. Qed.

(** In a run, the record of worker [i] holds the two clock readings of
    that worker. *)
Lemma started_stamps (w : world) u (i : Z) t :
  start (started w u i t) = Worker.clock_at_start (worker_answers w i) /\
  end_ (started w u i t) = Worker.clock_at_end (worker_answers w i).
Proof.
  unfold started.
  destruct (Worker.curl_easy_init_ok (worker_answers w i)) eqn:Hok.
  - rewrite (run_record_init_ok _ _ Hok). auto.
  - rewrite (run_record_init_failed _ _ Hok). auto.
Qed.

Lemma stdout_of_app (a b : list call) : stdout_of (a ++ b) = stdout_of a ++ stdout_of b.
Proof.
  induction a as [| x a IH]; [reflexivity |].
  destruct x; cbn; rewrite ?IH; reflexivity.
Qed.

Lemma stdout_of_dispatch_calls (n : nat) : forall i, stdout_of (dispatch_calls i n) = [].
Proof. induction n as [| n IH]; intros i; cbn; [reflexivity | apply IH]. Qed.

(** The second loop prints the lines of the records it must print, in the
    order of the array. *)
Lemma stdout_of_aggregate_calls sil (l : list thread_info) :
  forall i,
    stdout_of (aggregate_calls sil i l) =
    (fun t => report_line t (elapsed_of t)) <$> filter (fun t => emitted sil t = true) l.
Proof.
  induction l as [| t l IH]; intros i; [reflexivity |].
  cbn [aggregate_calls stdout_of]. rewrite stdout_of_app, IH, filter_cons.
  destruct (emitted sil t); [rewrite decide_True by done | rewrite decide_False by done];
    reflexivity.
Qed.

Lemma count_errors_bounds (l : list thread_info) :
  0 <= count_errors l <= Z.of_nat (length l).
Proof.
  unfold count_errors. pose proof (length_filter (fun t => is_error t = true) l). lia.
Qed.

Lemma is_error_iff (t : thread_info) : is_error t = true <-> curl_error_code t <> 0.
Proof.
  unfold is_error. destruct (Z.eqb_spec (curl_error_code t) 0); cbn; split; congruence.
Qed.

(** The records that count are those whose [curl_error_code] is not
    zero. *)
Lemma count_errors_nonzero (l : list thread_info) :
  count_errors l = Z.of_nat (length (filter (fun t => curl_error_code t <> 0) l)).
Proof.
  unfold count_errors. f_equal.
  induction l as [| t l IH]; [reflexivity |].
  rewrite !filter_cons. pose proof (is_error_iff t) as Ht.
  destruct (decide (is_error t = true)), (decide (curl_error_code t <> 0));
    cbn [length]; try tauto; by rewrite IH.
Qed.

Lemma last_finish_calls (before : list call) errs runs elapsed :
  last (before ++ finish_calls errs runs elapsed)
  = Some (Stdout (summary_line errs runs elapsed)).
Proof.
  unfold finish_calls.
  change (before ++ [CurlGlobalCleanup; Free; TimespecGet;
                     Stdout (summary_line errs runs elapsed)])
    with (before ++ [CurlGlobalCleanup; Free; TimespecGet]
                 ++ [Stdout (summary_line errs runs elapsed)]).
  rewrite app_assoc. apply last_snoc.
Qed.

(** C2. For a request of N >= 1 workers, N in the range of the [int] that
    counts the errors (the array of a larger run alone would take hundreds
    of gigabytes), when the array is allocated and every thread is created
    and joined, the run ends with N records, and the error count of its
    last line is the number of records whose [curl_error_code] is not
    zero. *)
Theorem error_count_of_run (w : world) (c : configuration) :
  valid c -> 1 <= number_of_runs c <= INT_MAX -> calloc_ok w = true ->
  creates_ok w (number_of_runs c) -> joins_ok w (number_of_runs c) ->
  exists final records,
    main w (initial_state c) = (Done 0, final) /\
    threads final = Some records /\
    Z.of_nat (length records) = number_of_runs c /\
    errors final = count_errors records /\
    count_errors records =
      Z.of_nat (length (filter (fun t => curl_error_code t <> 0) records)) /\
    last (calls final) =
      Some (Stdout (summary_line (count_errors records) (number_of_runs c)
                      (program_elapsed w))).
Proof.
  intros Hv Hn Hc Hcr Hjo.
  destruct (main_completes w c Hv Hc ltac:(lia) Hcr Hjo) as [et Hmain].
  pose proof (length_records_of w c ltac:(lia)) as Hlen.
  pose proof (count_errors_bounds (records_of w c)) as Hb.
  assert (Hfit : to_int (count_errors (records_of w c)) = count_errors (records_of w c)).
  { apply to_int_id. unfold in_int, INT_MIN, INT_MAX in *. lia. }
  eexists. exists (records_of w c). split; [exact Hmain |].
  cbn [threads errors calls]. rewrite Hfit.
  split; [reflexivity |]. split; [exact Hlen |].
  split; [reflexivity |]. split.
  - apply count_errors_nonzero.
  - rewrite !app_assoc. apply last_finish_calls.
Qed.

(** Three workers, one of them refused: one error. *)
Lemma error_count_of_run_witness :
  exists final records,
    main (a_world all_fine all_fine mixed) (initial_state (a_config 3 1)) = (Done 0, final) /\
    threads final = Some records /\
    Z.of_nat (length records) = 3 /\
    errors final = count_errors records /\
    count_errors records =
      Z.of_nat (length (filter (fun t => curl_error_code t <> 0) records)) /\
    last (calls final) =
      Some (Stdout (summary_line (count_errors records) 3
                      (program_elapsed (a_world all_fine all_fine mixed)))).
Proof.
  apply (error_count_of_run (a_world all_fine all_fine mixed) (a_config 3 1)).
  - unfold valid. vm_compute. discriminate.
  - unfold INT_MAX. simpl. lia.
  - reflexivity.
  - intros j Hj. reflexivity.
  - intros j Hj. reflexivity.
Defined.

(** The ordinals of the records, while they fit an [int]. *)
Lemma ordinals_dispatched (w : world) u (n : nat) :
  forall i,
    0 <= i -> i + Z.of_nat n <= INT_MAX + 1 ->
    thread_num <$> dispatched w u i n = seqZ i (Z.of_nat n).
Proof.
  induction n as [| n IH]; intros i Hi Hmax; [reflexivity |].
  cbn [dispatched fmap list_fmap]. rewrite seqZ_cons by lia.
  f_equal.
  - destruct (started_identity w u i zero_thread_info) as (-> & _ & _).
    apply to_int_id. unfold in_int, INT_MIN, INT_MAX in *. lia.
  - replace (Z.pred (Z.of_nat (S n))) with (Z.of_nat n) by lia.
    apply IH; lia.
Qed.

(** C8. In a run of N >= 1 workers that goes to its end, N such that the
    ordinals 0..N-1 are in the range of the [int] field that holds them
    (the array of a larger run alone would take hundreds of gigabytes),
    record [i] carries the ordinal [i]: the ordinals of the records are 0,
    1, ..., N-1 in this order, each once. The lines of the records are
    printed in the order of the array, record [i] before record [i + 1],
    and before the last line. *)
Theorem ordinals_of_run (w : world) (c : configuration) :
  valid c -> 1 <= number_of_runs c <= INT_MAX + 1 -> calloc_ok w = true ->
  creates_ok w (number_of_runs c) -> joins_ok w (number_of_runs c) ->
  exists final records,
    main w (initial_state c) = (Done 0, final) /\
    threads final = Some records /\
    Z.of_nat (length records) = number_of_runs c /\
    (forall i, 0 <= i < number_of_runs c ->
       exists t, records !! Z.to_nat i = Some t /\ thread_num t = i) /\
    thread_num <$> records = seqZ 0 (number_of_runs c) /\
    NoDup (thread_num <$> records) /\
    stdout_of (calls final) =
      (line_of <$> filter (fun t => emitted (silent c) t = true) records)
        ++ [summary_line (errors final) (number_of_runs c) (program_elapsed w)].
Proof.
  intros Hv Hn Hc Hcr Hjo.
  destruct (main_completes w c Hv Hc ltac:(lia) Hcr Hjo) as [et Hmain].
  assert (Hseq : thread_num <$> records_of w c = seqZ 0 (number_of_runs c)).
  { unfold records_of. rewrite ordinals_dispatched by lia. f_equal. lia. }
  eexists. exists (records_of w c). split; [exact Hmain |].
  cbn [threads errors calls].
  split; [reflexivity |]. split; [apply length_records_of; lia |].
  split; [| split; [exact Hseq | split]].
  - intros i Hi. exists (started w (config_url c) i zero_thread_info).
    split; [apply records_of_lookup; lia |].
    destruct (started_identity w (config_url c) i zero_thread_info) as (Hnum & _ & _).
    rewrite Hnum. apply to_int_id. unfold in_int, INT_MIN, INT_MAX in *. lia.
  - rewrite Hseq. apply NoDup_seqZ.
  - rewrite !stdout_of_app, stdout_of_dispatch_calls, stdout_of_aggregate_calls.
    reflexivity.
Qed.

(** Three workers in a verbose run: ordinals 0, 1, 2 and their lines. *)
Lemma ordinals_of_run_witness :
  exists final records,
    main (a_world all_fine all_fine mixed) (initial_state (a_config 3 0)) = (Done 0, final) /\
    threads final = Some records /\
    Z.of_nat (length records) = 3 /\
    (forall i, 0 <= i < 3 ->
       exists t, records !! Z.to_nat i = Some t /\ thread_num t = i) /\
    thread_num <$> records = seqZ 0 3 /\
    NoDup (thread_num <$> records) /\
    stdout_of (calls final) =
      (line_of <$> filter (fun t => emitted 0 t = true) records)
        ++ [summary_line (errors final) 3
              (program_elapsed (a_world all_fine all_fine mixed))].
Proof.
  apply (ordinals_of_run (a_world all_fine all_fine mixed) (a_config 3 0)).
  - unfold valid. vm_compute. discriminate.
  - unfold INT_MAX. simpl. lia.
  - reflexivity.
  - intros j Hj. reflexivity.
  - intros j Hj. reflexivity.
Defined.

(** ** What is printed for a record *)



(** ** Threads that cannot be created or joined *)

Lemma digits_inj (a b : Z) : digits a = digits b -> Z.abs_N a = Z.abs_N b.
Proof.
  unfold digits. intros H.
  assert (Hnn : forall n, N.to_uint n <> Decimal.Nil).
  { intros [| p]; [discriminate |]. apply DecimalPos.Unsigned.to_uint_nonnil. }
  apply DecimalN.Unsigned.to_uint_inj.
  pose proof (NilZero.usu _ (Hnn (Z.abs_N a))) as Ha.
  pose proof (NilZero.usu _ (Hnn (Z.abs_N b))) as Hb.
  rewrite H in Ha. congruence.
Qed.

(** The decimal text of an ordinal names it. *)
Lemma fmt_ld_inj (a b : Z) : 0 <= a -> 0 <= b -> fmt_ld a = fmt_ld b -> a = b.
Proof.
  intros Ha Hb. unfold fmt_ld, fmt_0ld.
  destruct (Z.ltb_spec a 0) as [? | _]; [lia |].
  destruct (Z.ltb_spec b 0) as [? | _]; [lia |].
  cbn [Nat.sub zeros]. rewrite !append_nil. intros Heq. apply digits_inj in Heq. lia.
Qed.

(** C4. In a run of N >= 1 workers whose array is allocated: if thread [k]
    is the first that cannot be created, the run stops there, with
    [perror] naming the ordinal [k] and the process exiting with the
    status [EXIT_FAILURE], which is not zero; no further thread is
    created, none is joined and nothing is printed. If all threads are
    created and thread [k] is the first that cannot be joined, the run
    stops there in the same way, after the records before [k] have been
    reported. The text of an ordinal belongs to that ordinal alone. If
    every thread is created and joined, the run returns 0 whatever the
    requests of the workers answered. *)
Theorem thread_failure_aborts (w : world) (c : configuration) :
  valid c -> 1 <= number_of_runs c -> calloc_ok w = true ->
  EXIT_FAILURE <> 0 /\
  (forall k k', 0 <= k -> 0 <= k' -> fmt_ld k = fmt_ld k' -> k = k') /\
  (forall k, 0 <= k < number_of_runs c ->
     creates_ok w k -> pthread_create_result w k <> 0 ->
     exists final,
       main w (initial_state c) = (Exited EXIT_FAILURE, final) /\
       calls final =
         setup_calls c ++ dispatch_calls 0 (Z.to_nat k)
           ++ [PthreadCreate k;
               Perror (pthread_create_result w k)
                 ("pthread_create: thread_num " +:+ fmt_ld k)] /\
       stdout_of (calls final) = []) /\
  (forall k, 0 <= k < number_of_runs c ->
     creates_ok w (number_of_runs c) ->
     joins_ok w k -> pthread_join_result w k <> 0 ->
     exists final,
       main w (initial_state c) = (Exited EXIT_FAILURE, final) /\
       calls final =
         setup_calls c ++ dispatch_calls 0 (Z.to_nat (number_of_runs c))
           ++ aggregate_calls (silent c) 0 (take (Z.to_nat k) (records_of w c))
           ++ [PthreadJoin k;
               Perror (pthread_join_result w k)
                 ("pthread_join: thread_num " +:+ fmt_ld k)]) /\
  (creates_ok w (number_of_runs c) -> joins_ok w (number_of_runs c) ->
   exists final, main w (initial_state c) = (Done 0, final)).
Proof.
  intros Hv Hn Hc. split; [discriminate |]. split; [exact fmt_ld_inj |].
  split; [| split].
  - intros k Hk Hcr Hko. eexists.
    split; [exact (main_create_aborts w c k Hv Hc Hk Hcr Hko) |].
    cbn [calls]. split; [reflexivity |].
    rewrite !stdout_of_app, stdout_of_dispatch_calls. reflexivity.
  - intros k Hk Hcr Hjo Hko.
    destruct (main_join_aborts w c k Hv Hc Hk Hcr Hjo Hko) as [et Hmain].
    eexists. split; [exact Hmain | reflexivity].
  - intros Hcr Hjo.
    destruct (main_completes w c Hv Hc ltac:(lia) Hcr Hjo) as [et Hmain].
    eexists. exact Hmain.
Qed.

(** One thread that cannot be created, one that cannot be joined, and
    requests that fail. *)
Lemma thread_failure_aborts_witness :
  (exists final,
     main (a_world (fails_at 1 11) all_fine mixed) (initial_state (a_config 3 0))
       = (Exited EXIT_FAILURE, final) /\
     calls final =
       setup_calls (a_config 3 0) ++ dispatch_calls 0 (Z.to_nat 1)
         ++ [PthreadCreate 1; Perror 11 ("pthread_create: thread_num " +:+ fmt_ld 1)] /\
     stdout_of (calls final) = []) /\
  (exists final,
     main (a_world all_fine (fails_at 1 22) mixed) (initial_state (a_config 3 0))
       = (Exited EXIT_FAILURE, final) /\
     calls final =
       setup_calls (a_config 3 0) ++ dispatch_calls 0 (Z.to_nat 3)
         ++ aggregate_calls 0 0
              (take (Z.to_nat 1)
                 (records_of (a_world all_fine (fails_at 1 22) mixed) (a_config 3 0)))
         ++ [PthreadJoin 1; Perror 22 ("pthread_join: thread_num " +:+ fmt_ld 1)]) /\
  (exists final,
     main (a_world all_fine all_fine (fun _ => refused)) (initial_state (a_config 3 0))
       = (Done 0, final)).
Proof.
  assert (Hv : valid (a_config 3 0)) by (unfold valid; vm_compute; discriminate).
  assert (Hn : 1 <= number_of_runs (a_config 3 0)) by (simpl; lia).
  split; [| split].
  - destruct (thread_failure_aborts (a_world (fails_at 1 11) all_fine mixed)
                (a_config 3 0) Hv Hn eq_refl) as (_ & _ & Hcreate & _ & _).
    apply (Hcreate 1).
    + simpl; lia.
    + intros j Hj. unfold fails_at. simpl.
      destruct (Z.eqb_spec j 1); [lia | reflexivity].
    + simpl. discriminate.
  - destruct (thread_failure_aborts (a_world all_fine (fails_at 1 22) mixed)
                (a_config 3 0) Hv Hn eq_refl) as (_ & _ & _ & Hjoin & _).
    apply (Hjoin 1).
    + simpl; lia.
    + intros j Hj. reflexivity.
    + intros j Hj. unfold fails_at. simpl.
      destruct (Z.eqb_spec j 1); [lia | reflexivity].
    + simpl. discriminate.
  - destruct (thread_failure_aborts (a_world all_fine all_fine (fun _ => refused))
                (a_config 3 0) Hv Hn eq_refl) as (_ & _ & _ & _ & Hdone).
    apply Hdone; intros j Hj; reflexivity.
Defined.

(** ** Configurations that are refused *)

(** C5. With zero workers asked for, or no URL, [main] prints the usage on
    standard output and exits with status 1: it has made no other call
    (no allocation, no thread, no libcurl), and no array exists. *)
Theorem invalid_configuration_exits (w : world) (c : configuration) :
  number_of_runs c = 0 \/ config_url c = None ->
  exists final,
    main w (initial_state c) = (Exited 1, final) /\
    1 <> 0 /\
    calls final = usage_calls (program_name c) /\
    Forall (fun x => is_stdout x = true) (calls final) /\
    threads final = None.
Proof.
  intros Hbad.
  assert (Hv : validate_configuration c = 0)
    by (apply validate_configuration_spec; tauto).
  eexists. split; [exact (main_usage w c Hv) |]. cbn [calls threads].
  split; [discriminate |]. split; [reflexivity |]. split; [| reflexivity].
  unfold usage_calls. repeat constructor.
Qed.

(** No worker asked for. *)
Lemma invalid_configuration_exits_witness :
  exists final,
    main all_served (initial_state (a_config 0 0)) = (Exited 1, final) /\
    1 <> 0 /\
    calls final = usage_calls (Some "./how_fast_is_server") /\
    Forall (fun x => is_stdout x = true) (calls final) /\
    threads final = None.
Proof.
  apply (invalid_configuration_exits all_served (a_config 0 0)).
  left. reflexivity.
Defined.

Example usage_text :
  stdout_of (calls (snd (main all_served
                           (initial_state
                              {| program_name := Some "hfs"; config_url := None;
                                 number_of_runs := 5; silent := 0;
                                 program_start := mk_timespec 0 0;
                                 program_end := mk_timespec 0 0 |})))) =
    [ "Usage: hfs -u URL -r number of runs ][-s produce less output]" +:+ newline;
      "Pipe through tee to create a logfile" +:+ newline;
      tab +:+ "hfs -u http://localhost -r 30000 | tee full.log" +:+ newline;
      tab +:+ "hfs -u http://localhost -r 30000 -s | tee error.log" +:+ newline ].
Proof. vm_compute. reflexivity. Qed.

(** ** A worker without a request object *)

(** C10. A worker whose request object cannot be built leaves in its
    record the zeros of [calloc] in every outcome field (response code, OS
    error code, transport error code, total time, error string). The
    second loop then takes the record for a success: it leaves the error
    count as it is and, in a silent run, prints nothing for it. *)
Theorem init_failure_counts_as_success (w : world) (u : option string) (i : Z) s l :
  Worker.curl_easy_init_ok (worker_answers w i) = false ->
  threads s = Some l -> 0 <= i ->
  l !! Z.to_nat i = Some (started w u i zero_thread_info) ->
  pthread_join_result w i = 0 ->
  let t := started w u i zero_thread_info in
  (response_code t = 0 /\ os_error_code t = 0 /\ curl_error_code t = 0 /\
   curl_total t = 0 /\ curl_error_string t = EmptyString) /\
  exists s',
    aggregate_body w i s = (Done tt, s') /\
    errors s' = errors s /\
    (silent (config s) <> 0 -> calls s' = calls s ++ [PthreadJoin i]).
Proof.
  intros Hinit Hl Hi Hat Hok t.
  assert (Hzero : response_code t = 0 /\ os_error_code t = 0 /\ curl_error_code t = 0 /\
                  curl_total t = 0 /\ curl_error_string t = EmptyString).
  { unfold t, started. rewrite (run_record_init_failed _ _ Hinit). cbn. auto. }
  split; [exact Hzero |].
  rewrite (aggregate_body_ok w i s l t Hl Hi Hat Hok).
  destruct Hzero as (_ & _ & Hcode & _ & _).
  eexists. split; [reflexivity |]. cbn [errors calls].
  unfold emitted, is_error. rewrite Hcode. cbn [Z.eqb negb].
  split; [reflexivity |]. intros Hsil. apply Z.eqb_neq in Hsil. by rewrite Hsil.
Qed.

(** Worker 2 of the mixed world gets no handle; the run is silent. *)
Lemma init_failure_counts_as_success_witness :
  let w := a_world all_fine all_fine mixed in
  let u := Some "http://localhost" in
  let s := mk_state (a_config 3 1) (Some (records_of w (a_config 3 1))) 1
             (mk_timespec 0 0) (mk_timespec 0 0) [] in
  let t := started w u 2 zero_thread_info in
  (response_code t = 0 /\ os_error_code t = 0 /\ curl_error_code t = 0 /\
   curl_total t = 0 /\ curl_error_string t = EmptyString) /\
  exists s',
    aggregate_body w 2 s = (Done tt, s') /\
    errors s' = errors s /\
    (silent (config s) <> 0 -> calls s' = calls s ++ [PthreadJoin 2]).
Proof.
  cbv zeta.
  apply (init_failure_counts_as_success (a_world all_fine all_fine mixed)
           (Some "http://localhost") 2
           (mk_state (a_config 3 1)
              (Some (records_of (a_world all_fine all_fine mixed) (a_config 3 1))) 1
              (mk_timespec 0 0) (mk_timespec 0 0) [])
           (records_of (a_world all_fine all_fine mixed) (a_config 3 1))).
  - reflexivity.
  - reflexivity.
  - lia.
  - reflexivity.
  - reflexivity.
Defined.

(** * Part III: more of the code *)

(** ** The elapsed-time subtraction, in either order *)

(** Without a borrow only the difference of the seconds has to fit. *)
Lemma timespec_diff_macro_no_borrow (a b : timespec) :
  nsec_ok a -> nsec_ok b -> tv_nsec b <= tv_nsec a ->
  in_long (tv_sec a - tv_sec b) ->
  timespec_diff_macro a b = mk_timespec (tv_sec a - tv_sec b) (tv_nsec a - tv_nsec b).
Proof.
  unfold nsec_ok, timespec_diff_macro. intros Ha Hb Hle Hs.
  assert (Hn : in_long (tv_nsec a - tv_nsec b))
    by (unfold in_long, LONG_MIN, LONG_MAX; lia).
  rewrite (to_long_id _ Hn), (to_long_id _ Hs).
  destruct (Z.ltb_spec (tv_nsec a - tv_nsec b) 0); [lia | reflexivity].
Qed.

(** For two timestamps with nanoseconds in [0, 999999999], in whatever
    order, such that [time_t] holds every number of seconds the macro
    computes (the difference of the seconds and, when the first timestamp
    has fewer nanoseconds than the second, that difference less the second
    it borrows): the nanoseconds of the result are again in
    [0, 999999999], the result denotes the difference of the two instants,
    and its seconds are negative exactly when the first timestamp is the
    earlier one. *)
Theorem timespec_diff_macro_signed (a b : timespec) :
  nsec_ok a -> nsec_ok b ->
  in_long (tv_sec a - tv_sec b) ->
  (tv_nsec a < tv_nsec b -> in_long (tv_sec a - tv_sec b - 1)) ->
  nsec_ok (timespec_diff_macro a b) /\
  nanos (timespec_diff_macro a b) = nanos a - nanos b /\
  (tv_sec (timespec_diff_macro a b) < 0 <-> nanos a < nanos b).
Proof.
  intros Ha Hb Hs Hs1.
  destruct (Z.lt_ge_cases (tv_nsec a) (tv_nsec b)) as [Hlt | Hge].
  - rewrite (timespec_diff_macro_exact a b Ha Hb (Hs1 Hlt) Hs).
    unfold nsec_ok, nanos in *.
    destruct (Z.ltb_spec (tv_nsec a - tv_nsec b) 0); cbn; lia.
  - rewrite (timespec_diff_macro_no_borrow a b Ha Hb Hge Hs).
    unfold nsec_ok, nanos in *. cbn. lia.
Qed.

(** A clock that stepped back by 0.2 s between the two readings. *)
Lemma timespec_diff_macro_signed_witness :
  nsec_ok (timespec_diff_macro (mk_timespec 5 900000000) (mk_timespec 6 100000000)) /\
  nanos (timespec_diff_macro (mk_timespec 5 900000000) (mk_timespec 6 100000000))
    = nanos (mk_timespec 5 900000000) - nanos (mk_timespec 6 100000000) /\
  (tv_sec (timespec_diff_macro (mk_timespec 5 900000000) (mk_timespec 6 100000000)) < 0
     <-> nanos (mk_timespec 5 900000000) < nanos (mk_timespec 6 100000000)).
Proof.
  apply (timespec_diff_macro_signed (mk_timespec 5 900000000) (mk_timespec 6 100000000)).
  - unfold nsec_ok; simpl; lia.
  - unfold nsec_ok; simpl; lia.
  - unfold in_long, LONG_MIN, LONG_MAX; simpl; lia.
  - intros _. unfold in_long, LONG_MIN, LONG_MAX; simpl; lia.
Defined.

(** The widest gap backwards, where nothing is borrowed. *)
Example diff_of_the_widest_step_back :
  timespec_diff_macro (mk_timespec LONG_MIN 5) (mk_timespec 0 5) = mk_timespec LONG_MIN 0.
Proof. reflexivity. Qed.

(** The condition on the borrow is needed: here the difference of the
    seconds fits, the borrowed second does not, and the result is not the
    difference of the two instants. *)
Example diff_borrow_leaves_time_t :
  in_long (tv_sec (mk_timespec LONG_MIN 0) - tv_sec (mk_timespec 0 1)) /\
  timespec_diff_macro (mk_timespec LONG_MIN 0) (mk_timespec 0 1)
    = mk_timespec LONG_MAX 999999999.
Proof. split; [unfold in_long, LONG_MIN, LONG_MAX; simpl; lia | reflexivity]. Qed.

Example diff_of_a_step_back :
  timespec_diff_macro (mk_timespec 5 900000000) (mk_timespec 6 100000000)
  = mk_timespec (-1) 800000000.
Proof. reflexivity. Qed.

(** The nanoseconds alone never depend on the seconds. *)
Lemma timespec_diff_macro_nsec_ok (a b : timespec) :
  nsec_ok a -> nsec_ok b -> nsec_ok (timespec_diff_macro a b).
Proof.
  unfold nsec_ok, timespec_diff_macro. intros Ha Hb.
  assert (Hn : in_long (tv_nsec a - tv_nsec b))
    by (unfold in_long, LONG_MIN, LONG_MAX; lia).
  rewrite (to_long_id _ Hn).
  destruct (Z.ltb_spec (tv_nsec a - tv_nsec b) 0); cbn [tv_nsec]; [| lia].
  rewrite to_long_id; [lia |]. unfold in_long, LONG_MIN, LONG_MAX; lia.
Qed.

(** ** The width of the printed numbers *)

Lemma of_uint_acc_lower (d : Decimal.uint) :
  forall acc,
    (N.pos acc * 10 ^ N.of_nat (Decimal.nb_digits d) <= N.pos (Pos.of_uint_acc d acc))%N.
Proof.
  induction d; intros acc; cbn [Pos.of_uint_acc Decimal.nb_digits];
    [rewrite N.pow_0_r; lia | ..];
    rewrite Nat2N.inj_succ, N.pow_succ_r';
    (etransitivity; [| apply IHd]);
    rewrite N.mul_assoc; apply N.mul_le_mono_r; lia.
Qed.

Lemma of_uint_lower (d : Decimal.uint) :
  Decimal.nzhead d <> Decimal.Nil ->
  (10 ^ N.of_nat (Decimal.nb_digits (Decimal.nzhead d) - 1) <= N.of_uint d)%N.
Proof.
  unfold N.of_uint.
  induction d; intros Hnz; cbn [Decimal.nzhead Pos.of_uint Decimal.nb_digits] in *;
    [congruence | auto | ..];
    rewrite Nat.sub_succ, Nat.sub_0_r;
    (etransitivity; [| apply of_uint_acc_lower]);
    pose proof (N.pow_nonzero 10 (N.of_nat (Decimal.nb_digits d)) ltac:(lia)); nia.
Qed.

(** A number below [10 ^ k] is written with at most [k] digits. *)
Lemma nb_digits_to_uint (n : N) (k : nat) :
  (0 < k)%nat -> (n < 10 ^ N.of_nat k)%N -> (Decimal.nb_digits (N.to_uint n) <= k)%nat.
Proof.
  intros Hk Hn. destruct n as [| p]; [cbn; lia |].
  set (d := N.to_uint (N.pos p)).
  assert (Hnorm : Decimal.unorm d = d)
    by (unfold d; rewrite <- DecimalN.Unsigned.to_of, DecimalN.Unsigned.of_to; reflexivity).
  assert (Hval : N.of_uint d = N.pos p) by apply DecimalN.Unsigned.of_to.
  assert (Hnz : Decimal.nzhead d <> Decimal.Nil).
  { intros Hnil. unfold Decimal.unorm in Hnorm. rewrite Hnil in Hnorm.
    rewrite <- Hnorm in Hval. discriminate. }
  pose proof (of_uint_lower d Hnz) as Hlow.
  rewrite <- (DecimalFacts.unorm_nzhead d Hnz), Hnorm, Hval in Hlow.
  assert (Hlt : (10 ^ N.of_nat (Decimal.nb_digits d - 1) < 10 ^ N.of_nat k)%N) by lia.
  apply N.pow_lt_mono_r_iff in Hlt; lia.
Qed.

Lemma length_string_of_uint (d : Decimal.uint) :
  String.length (NilEmpty.string_of_uint d) = Decimal.nb_digits d.
Proof. induction d; cbn; auto. Qed.

Lemma to_uint_nonnil (n : N) : N.to_uint n <> Decimal.Nil.
Proof. destruct n as [| p]; [discriminate | apply DecimalPos.Unsigned.to_uint_nonnil]. Qed.

Lemma digits_unfold (z : Z) :
  digits z = NilEmpty.string_of_uint (N.to_uint (Z.abs_N z)).
Proof.
  unfold digits, NilZero.string_of_uint.
  pose proof (to_uint_nonnil (Z.abs_N z)).
  destruct (N.to_uint (Z.abs_N z)); congruence.
Qed.

Lemma length_digits (z : Z) (k : nat) :
  (0 < k)%nat -> Z.abs z < 10 ^ Z.of_nat k -> (String.length (digits z) <= k)%nat.
Proof.
  intros Hk Hz. rewrite digits_unfold, length_string_of_uint.
  apply nb_digits_to_uint; [exact Hk |].
  apply N2Z.inj_lt. rewrite N2Z.inj_abs_N, N2Z.inj_pow, nat_N_Z. exact Hz.
Qed.

Lemma length_digits_pos (z : Z) : (0 < String.length (digits z))%nat.
Proof.
  rewrite digits_unfold, length_string_of_uint.
  pose proof (to_uint_nonnil (Z.abs_N z)).
  destruct (N.to_uint (Z.abs_N z)); cbn; (congruence || lia).
Qed.

Lemma length_append (a b : string) :
  String.length (a +:+ b) = (String.length a + String.length b)%nat.
Proof.
  induction a as [| x a IH]; [reflexivity |].
  rewrite append_cons. cbn [String.length]. by rewrite IH.
Qed.

Lemma length_zeros n : String.length (zeros n) = n.
Proof. induction n; cbn; auto. Qed.

Lemma all_chars_app p (a b : string) :
  all_chars p (a +:+ b) = all_chars p a && all_chars p b.
Proof.
  induction a as [| x a IH]; [reflexivity |].
  rewrite append_cons. cbn [all_chars]. rewrite IH. by rewrite andb_assoc.
Qed.

Lemma all_digits_zeros n : all_chars is_digit (zeros n) = true.
Proof. induction n; cbn; auto. Qed.

Lemma all_digits_uint (d : Decimal.uint) :
  all_chars is_digit (NilEmpty.string_of_uint d) = true.
Proof. induction d; cbn; auto. Qed.

Lemma all_digits_digits z : all_chars is_digit (digits z) = true.
Proof. rewrite digits_unfold. apply all_digits_uint. Qed.

(** [%0<width>ld] never cuts a number, and fills up to the width. *)
Lemma length_fmt_0ld (width : nat) (z : Z) :
  String.length (fmt_0ld width z)
  = Nat.max width (String.length (digits z) + (if z <? 0 then 1 else 0)).
Proof.
  unfold fmt_0ld. pose proof (length_digits_pos z).
  destruct (z <? 0); rewrite ?length_append, length_zeros; cbn [String.length]; lia.
Qed.

(** Whatever the two readings of the clock, as long as their nanoseconds
    are in [0, 999999999], the fraction of the elapsed seconds is printed
    with exactly nine decimal digits, in the line of a record and in the
    last line of the run. *)
Theorem nanoseconds_in_nine_digits (a b : timespec) :
  nsec_ok a -> nsec_ok b ->
  let elapsed := timespec_diff_macro a b in
  let frac := fmt_0ld 9 (tv_nsec elapsed) in
  String.length frac = 9%nat /\
  all_chars is_digit frac = true /\
  (forall t nl,
     telemetry_line t elapsed nl =
       "Thread=" +:+ fmt_ld (thread_num t)
       +:+ ": response_code=" +:+ fmt_ld (response_code t)
       +:+ ": seconds=" +:+ fmt_ld (tv_sec elapsed) +:+ "." +:+ frac
       +:+ ": curl_time_t=" +:+ fmt_0ld 6 (curl_total t)
       +:+ ": os_error_code=" +:+ fmt_ld (os_error_code t)
       +:+ ": curl_error_code=" +:+ fmt_ld (curl_error_code t)
       +:+ ": curl_error=" +:+ curl_error_string t +:+ nl) /\
  (forall errs runs,
     summary_line errs runs elapsed =
       fmt_ld errs +:+ " errors out of " +:+ fmt_ld runs +:+ " runs in "
       +:+ fmt_ld (tv_sec elapsed) +:+ "." +:+ frac +:+ " real seconds" +:+ newline).
Proof.
  intros Ha Hb elapsed frac.
  pose proof (timespec_diff_macro_nsec_ok a b Ha Hb) as Hn.
  fold elapsed in Hn. unfold nsec_ok in Hn.
  assert (Hlen : (String.length (digits (tv_nsec elapsed)) <= 9)%nat).
  { apply length_digits; [lia |]. change (10 ^ Z.of_nat 9) with 1000000000. lia. }
  split; [| split; [| split; reflexivity]].
  - unfold frac. rewrite length_fmt_0ld.
    destruct (Z.ltb_spec (tv_nsec elapsed) 0); lia.
  - unfold frac, fmt_0ld. destruct (Z.ltb_spec (tv_nsec elapsed) 0); [lia |].
    by rewrite all_chars_app, all_digits_zeros, all_digits_digits.
Qed.

(** 0.2 s and 5 ns. *)
Lemma nanoseconds_in_nine_digits_witness :
  String.length
    (fmt_0ld 9 (tv_nsec (timespec_diff_macro (mk_timespec 6 5) (mk_timespec 5 0)))) = 9%nat /\
  fmt_0ld 9 (tv_nsec (timespec_diff_macro (mk_timespec 6 5) (mk_timespec 5 0)))
    = "000000005".
Proof.
  split; [| reflexivity].
  apply (nanoseconds_in_nine_digits (mk_timespec 6 5) (mk_timespec 5 0)).
  - unfold nsec_ok; simpl; lia.
  - unfold nsec_ok; simpl; lia.
Defined.

(** ** The worker and its libcurl handle *)

(** A worker makes one transfer on the handle it gets and then releases
    the handle, once, as its last libcurl call; without a handle it makes
    no transfer, releases nothing and writes one diagnostic to the standard
    error. It never transfers twice. Every option is set before the
    transfer: the error buffer, the write function and the URL of the
    record, which is the only URL ever set; the results are read after the
    transfer and before the release. *)
Theorem one_transfer_per_handle (a : Worker.answers) (t : thread_info) :
  let made := snd (Worker.run a t) in
  let n := if Worker.curl_easy_init_ok a then 1%nat else 0%nat in
  count_worker_calls is_perform made = n /\
  count_worker_calls is_cleanup made = n /\
  count_worker_calls is_stderr made = (1 - n)%nat /\
  (Worker.curl_easy_init_ok a = true ->
   exists before after,
     made = before ++ Worker.CurlEasyPerform :: after
              ++ [Worker.CurlEasyCleanup; Worker.TimespecGet Worker.StampEnd] /\
     Worker.CurlEasySetopt (Worker.CURLOPT_URL (url t)) ∈ before /\
     Worker.CurlEasySetopt Worker.CURLOPT_ERRORBUFFER ∈ before /\
     Worker.CurlEasySetopt Worker.CURLOPT_WRITEFUNCTION ∈ before /\
     (forall u, Worker.CurlEasySetopt (Worker.CURLOPT_URL u) ∈ made -> u = url t) /\
     (forall o, Worker.CurlEasySetopt o ∉ after) /\
     (forall i, Worker.CurlEasyGetinfo i ∉ before) /\
     (forall i, Worker.CurlEasyGetinfo i ∈ after)).
Proof.
  cbv zeta. destruct (Worker.curl_easy_init_ok a) eqn:Hok.
  - rewrite (run_calls_init_ok a t Hok).
    split; [reflexivity |]. split; [reflexivity |]. split; [reflexivity |].
    intros _.
    exists [Worker.TimespecGet Worker.StampStart; Worker.CurlEasyInit;
            Worker.CurlEasySetopt Worker.CURLOPT_ERRORBUFFER;
            Worker.CurlEasySetopt Worker.CURLOPT_WRITEFUNCTION;
            Worker.CurlEasySetopt (Worker.CURLOPT_URL (url t))].
    exists [Worker.CurlEasyGetinfo Worker.CURLINFO_TOTAL_TIME_T;
            Worker.CurlEasyGetinfo Worker.CURLINFO_RESPONSE_CODE;
            Worker.CurlEasyGetinfo Worker.CURLINFO_OS_ERRNO].
    split; [reflexivity |].
    repeat split.
    + rewrite !elem_of_cons. auto 10.
    + rewrite !elem_of_cons. auto 10.
    + rewrite !elem_of_cons. auto 10.
    + intros u Hu. rewrite !elem_of_cons, elem_of_nil in Hu.
      repeat destruct Hu as [Hu | Hu]; congruence || done.
    + intros o Ho. rewrite !elem_of_cons, elem_of_nil in Ho.
      repeat destruct Ho as [Ho | Ho]; congruence || done.
    + intros i Hi. rewrite !elem_of_cons, elem_of_nil in Hi.
      repeat destruct Hi as [Hi | Hi]; congruence || done.
    + intros i. rewrite !elem_of_cons. destruct i; auto 10.
  - rewrite (run_calls_init_failed a t Hok).
    split; [reflexivity |]. split; [reflexivity |]. split; [reflexivity |].
    intros [=].
Qed.

(** A worker leaves the ordinal, the thread id and the URL of its record
    as [main] set them. With a handle it overwrites every outcome field,
    so that nothing of what the record held before is left; without one
    it leaves every outcome field as it was. *)
Theorem worker_writes_its_outcome (a : Worker.answers) (t : thread_info) :
  let t' := fst (Worker.run a t) in
  (thread_num t' = thread_num t /\ thread_id t' = thread_id t /\ url t' = url t) /\
  (Worker.curl_easy_init_ok a = true ->
   forall other,
     thread_num other = thread_num t -> thread_id other = thread_id t ->
     url other = url t ->
     fst (Worker.run a other) = t') /\
  (Worker.curl_easy_init_ok a = false ->
   response_code t' = response_code t /\ os_error_code t' = os_error_code t /\
   curl_error_code t' = curl_error_code t /\ curl_total t' = curl_total t /\
   curl_error_string t' = curl_error_string t).
Proof.
  cbv zeta. split; [apply run_keeps_identity |]. split.
  - intros Hok other Hnum Hid Hurl.
    rewrite !(run_record_init_ok a _ Hok), Hnum, Hid, Hurl. reflexivity.
  - intros Hko. rewrite (run_record_init_failed a t Hko). cbn. auto.
Qed.

(** ** Runs that never start a worker *)

(** A configuration that passes the check reaches the first loop. *)
Lemma main_enters (w : world) (c : configuration) :
  valid c ->
  main w (initial_state c) =
    bind (dispatch w) (fun _ => bind (aggregate w) (fun _ => finish w)) (entry_state w c).
Proof.
  intros Hv. unfold main, check_configuration.
  unfold bind at 1. unfold bind at 1. unfold get at 1.
  cbn [initial_state config].
  apply Z.eqb_neq in Hv. rewrite Hv. cbn [when ret].
  unfold bind at 1. reflexivity.
Qed.

(** When [calloc] returns the null pointer, [main] does not notice: it
    goes on to [curl_global_init] and faults on the first element it
    writes, before any thread is created and with nothing printed. *)
Theorem failed_calloc_faults (w : world) (c : configuration) :
  valid c -> 1 <= number_of_runs c -> calloc_ok w = false ->
  exists final,
    main w (initial_state c) = (Faulted, final) /\
    calls final = setup_calls c /\
    threads final = None.
Proof.
  intros Hv Hn Hc. rewrite (main_enters w c Hv).
  unfold entry_state. rewrite Hc. cbn [andb].
  set (s0 := mk_state _ _ _ _ _ _).
  assert (Hd : dispatch w s0 = (Faulted, s0)).
  { unfold dispatch, get, bind at 1.
    cbn [s0 config started_config set_program_start number_of_runs].
    destruct (Z.to_nat (number_of_runs c)) as [| n] eqn:Hnat; [lia |].
    cbn [for_loop]. apply bind_faulted.
    unfold dispatch_body. apply bind_faulted.
    unfold update_thread. apply bind_faulted. reflexivity. }
  rewrite (bind_faulted _ _ _ _ Hd). exists s0. auto.
Qed.

Lemma failed_calloc_faults_witness :
  exists final,
    main {| clock_program_start := mk_timespec 5 0;
            clock_program_end := mk_timespec 7 500;
            calloc_ok := false;
            pthread_create_result := all_fine;
            pthread_create_id := fun i => i;
            worker_answers := mixed;
            pthread_join_result := all_fine |}
      (initial_state (a_config 3 0)) = (Faulted, final) /\
    calls final = setup_calls (a_config 3 0) /\
    threads final = None.
Proof.
  apply (failed_calloc_faults _ (a_config 3 0)).
  - unfold valid. vm_compute. discriminate.
  - simpl. lia.
  - reflexivity.
Defined.

(** A negative number of runs passes the check. The run then creates and
    joins no thread, reports no error out of that negative number of runs,
    and returns 0. *)
Theorem negative_runs_do_nothing (w : world) (c : configuration) :
  program_name c <> None -> config_url c <> None -> number_of_runs c < 0 ->
  exists final,
    main w (initial_state c) = (Done 0, final) /\
    calls final = setup_calls c ++ finish_calls 0 (number_of_runs c) (program_elapsed w) /\
    threads final = None /\
    errors final = 0.
Proof.
  intros Hp Hu Hn.
  assert (Hv : valid c).
  { unfold valid. intros H. apply validate_configuration_spec in H.
    destruct H as [H | [H | H]]; (congruence || lia). }
  rewrite (main_enters w c Hv). unfold entry_state.
  destruct (Z.leb_spec 0 (number_of_runs c)) as [? | _]; [lia |].
  rewrite andb_false_r.
  assert (Hz : Z.to_nat (number_of_runs c) = O) by lia.
  eexists. split.
  - unfold dispatch, aggregate, finish, get, modify, did, printf, did, modify, ret, bind.
    cbn. rewrite Hz. cbn. rewrite Hz. cbn. reflexivity.
  - cbn. auto.
Qed.

Lemma negative_runs_do_nothing_witness :
  exists final,
    main all_served (initial_state (a_config (-1) 0)) = (Done 0, final) /\
    calls final = setup_calls (a_config (-1) 0)
                    ++ finish_calls 0 (-1) (program_elapsed all_served) /\
    threads final = None /\
    errors final = 0.
Proof.
  apply (negative_runs_do_nothing all_served (a_config (-1) 0)).
  - discriminate.
  - discriminate.
  - simpl. lia.
Defined.

Example negative_runs_output :
  stdout_of (calls (snd (main all_served (initial_state (a_config (-1) 0))))) =
    [ "0 errors out of -1 runs in 2.000000500 real seconds" +:+ newline ].
Proof. vm_compute. reflexivity. Qed.

(** ** The option loop *)

Lemma option_loop_app strtoul (l l' : list getopt_answer) c :
  option_loop strtoul (l ++ l') c = option_loop strtoul l' (option_loop strtoul l c).
Proof. unfold option_loop. apply fold_left_app. Qed.

Lemma option_loop_keeps strtoul (l : list getopt_answer) :
  forall c,
    program_name (option_loop strtoul l c) = program_name c /\
    (forallb (fun a => negb (is_opt_u a)) l = true ->
     config_url (option_loop strtoul l c) = config_url c) /\
    (forallb (fun a => negb (is_opt_r a)) l = true ->
     number_of_runs (option_loop strtoul l c) = number_of_runs c) /\
    silent (option_loop strtoul l c) = (if existsb is_opt_s l then 1 else silent c).
Proof.
  induction l as [| a l IH]; intros c; [cbn; auto |].
  change (option_loop strtoul (a :: l) c)
    with (option_loop strtoul l (option_case strtoul c a)).
  destruct (IH (option_case strtoul c a)) as (Hp & Hu & Hr & Hs).
  rewrite Hp, Hs. cbn [forallb existsb].
  split; [by destruct a |]. split; [| split].
  - intros H. apply andb_true_iff in H as [Ha Hl]. rewrite (Hu Hl). by destruct a.
  - intros H. apply andb_true_iff in H as [Ha Hl]. rewrite (Hr Hl). by destruct a.
  - destruct a; cbn; destruct (existsb is_opt_s l); reflexivity.
Qed.

Lemma option_loop_last_u strtoul (c : configuration) l optarg l' :
  forallb (fun a => negb (is_opt_u a)) l' = true ->
  config_url (option_loop strtoul (l ++ opt_u optarg :: l') c) = Some optarg.
Proof.
  intros Hl'. rewrite option_loop_app.
  change (option_loop strtoul (opt_u optarg :: l') ?x)
    with (option_loop strtoul l' (option_case strtoul x (opt_u optarg))).
  destruct (option_loop_keeps strtoul l'
              (option_case strtoul (option_loop strtoul l c) (opt_u optarg)))
    as (_ & Hu & _ & _).
  by rewrite (Hu Hl').
Qed.

Lemma option_loop_last_r strtoul (c : configuration) l optarg l' :
  forallb (fun a => negb (is_opt_r a)) l' = true ->
  number_of_runs (option_loop strtoul (l ++ opt_r optarg :: l') c)
  = to_long (strtoul optarg).
Proof.
  intros Hl'. rewrite option_loop_app.
  change (option_loop strtoul (opt_r optarg :: l') ?x)
    with (option_loop strtoul l' (option_case strtoul x (opt_r optarg))).
  destruct (option_loop_keeps strtoul l'
              (option_case strtoul (option_loop strtoul l c) (opt_r optarg)))
    as (_ & _ & Hr & _).
  by rewrite (Hr Hl').
Qed.

Lemma option_loop_filter strtoul (l : list getopt_answer) :
  forall c,
    option_loop strtoul (filter (fun a => is_opt_u a || is_opt_r a || is_opt_s a = true) l) c
    = option_loop strtoul l c.
Proof.
  induction l as [| a l IH]; intros c; [reflexivity |].
  rewrite filter_cons.
  change (option_loop strtoul (a :: l) c)
    with (option_loop strtoul l (option_case strtoul c a)).
  destruct a; cbn [is_opt_u is_opt_r is_opt_s orb];
    try (rewrite decide_True by done;
         change (option_loop strtoul (?x :: ?k) c)
           with (option_loop strtoul k (option_case strtoul c x)));
    try (rewrite decide_False by done);
    apply IH.
Qed.

(** Of several [-u] the last one gives the URL, of several [-r] the last
    one gives the number of runs (what [strtoul] reads, stored in a
    [long]); a single [-s] anywhere makes the run silent; and nothing
    else that [getopt] answers (the flags [o] and [l], a missing argument,
    an unknown option) changes the configuration. *)
Theorem option_loop_last_wins strtoul (c : configuration) :
  (forall l optarg l',
     forallb (fun a => negb (is_opt_u a)) l' = true ->
     config_url (option_loop strtoul (l ++ opt_u optarg :: l') c) = Some optarg) /\
  (forall l optarg l',
     forallb (fun a => negb (is_opt_r a)) l' = true ->
     number_of_runs (option_loop strtoul (l ++ opt_r optarg :: l') c)
     = to_long (strtoul optarg)) /\
  (forall l, silent (option_loop strtoul l c) = if existsb is_opt_s l then 1 else silent c) /\
  (forall l,
     option_loop strtoul (filter (fun a => is_opt_u a || is_opt_r a || is_opt_s a = true) l) c
     = option_loop strtoul l c).
Proof.
  split; [exact (option_loop_last_u strtoul c) |].
  split; [exact (option_loop_last_r strtoul c) |].
  split.
  - intros l. by destruct (option_loop_keeps strtoul l c) as (_ & _ & _ & Hs).
  - intros l. apply option_loop_filter.
Qed.

Example option_loop_sample :
  option_loop sample_strtoul
    [opt_u "http://a"; opt_question; opt_r "0"; opt_s; opt_o; opt_u "http://b";
     opt_colon; opt_r "3"; opt_l]
    (declared_config (Some "hfs"))
  = {| program_name := Some "hfs"; config_url := Some "http://b";
       number_of_runs := 3; silent := 1;
       program_start := mk_timespec 0 0; program_end := mk_timespec 0 0 |}.
Proof. reflexivity. Qed.

(** A command line without [-u], or without [-r], or whose last [-r] reads
    as zero, gets the usage text and the exit status 1, and nothing else
    happens. *)
Theorem missing_option_prints_usage strtoul (argv0 : option string)
    (answers : list getopt_answer) (w : world) :
  forallb (fun a => negb (is_opt_u a)) answers = true
  \/ forallb (fun a => negb (is_opt_r a)) answers = true
  \/ (exists l optarg l',
        answers = l ++ opt_r optarg :: l' /\
        forallb (fun a => negb (is_opt_r a)) l' = true /\
        strtoul optarg = 0) ->
  exists final,
    main_argv strtoul argv0 answers w = (Exited 1, final) /\
    calls final = usage_calls argv0 /\
    threads final = None.
Proof.
  intros Hbad. unfold main_argv.
  set (c := option_loop strtoul answers (declared_config argv0)).
  assert (Hv : validate_configuration c = 0).
  { apply validate_configuration_spec. right.
    destruct (option_loop_keeps strtoul answers (declared_config argv0))
      as (_ & Hu & Hr & _).
    destruct Hbad as [H | [H | (l & optarg & l' & -> & Hl' & Hzero)]].
    - left. exact (Hu H).
    - right. exact (Hr H).
    - right. unfold c.
      rewrite (option_loop_last_r strtoul (declared_config argv0) l optarg l' Hl').
      by rewrite Hzero. }
  rewrite (main_usage w c Hv). eexists. split; [reflexivity |]. cbn [calls threads].
  split; [| reflexivity]. unfold c.
  by destruct (option_loop_keeps strtoul answers (declared_config argv0)) as (-> & _).
Qed.

Lemma missing_option_prints_usage_witness :
  exists final,
    main_argv sample_strtoul (Some "hfs") [opt_r "3"; opt_s; opt_colon] all_served
      = (Exited 1, final) /\
    calls final = usage_calls (Some "hfs") /\
    threads final = None.
Proof.
  apply (missing_option_prints_usage sample_strtoul (Some "hfs")
           [opt_r "3"; opt_s; opt_colon] all_served).
  left. reflexivity.
Defined.

Example minus_one_runs :
  stdout_of (calls (snd (main_argv sample_strtoul (Some "hfs")
                           [opt_u "http://localhost"; opt_r "-1"] all_served))) =
    [ "0 errors out of -1 runs in 2.000000500 real seconds" +:+ newline ].
Proof. vm_compute. reflexivity. Qed.

(** ** The order of the calls of a run *)

Lemma count_calls_app p (a b : list call) :
  count_calls p (a ++ b) = (count_calls p a + count_calls p b)%nat.
Proof. unfold count_calls. by rewrite filter_app, length_app. Qed.

Lemma dispatch_calls_flat_map (n : nat) :
  forall i,
    dispatch_calls i n =
    flat_map (fun j => [PthreadCreate j; Nanosleep WAIT_TIME_NANO]) (seqZ i (Z.of_nat n)).
Proof.
  induction n as [| n IH]; intros i; [reflexivity |].
  rewrite seqZ_cons by lia.
  replace (Z.pred (Z.of_nat (S n))) with (Z.of_nat n) by lia.
  replace (Z.succ i) with (i + 1) by lia.
  cbn [dispatch_calls flat_map app]. by rewrite IH.
Qed.

Ltac settle_decides :=
  repeat match goal with
         | |- context [decide (?a = ?b)] => destruct (decide (a = b)); try congruence
         end.

Lemma aggregate_calls_counts sil (l : list thread_info) :
  forall i,
    count_calls is_pthread_create (aggregate_calls sil i l) = O /\
    count_calls is_nanosleep (aggregate_calls sil i l) = O /\
    count_calls is_teardown (aggregate_calls sil i l) = O /\
    count_calls is_curl_global (aggregate_calls sil i l) = O /\
    filter (fun x => is_pthread_join x = true) (aggregate_calls sil i l)
      = PthreadJoin <$> seqZ i (Z.of_nat (length l)).
Proof.
  induction l as [| t l IH]; intros i; [by cbn |].
  destruct (IH (i + 1)) as (Hc & Hn & Ht & Hg & Hj).
  cbn [aggregate_calls length]. rewrite seqZ_cons by lia.
  replace (Z.pred (Z.of_nat (S (length l)))) with (Z.of_nat (length l)) by lia.
  replace (Z.succ i) with (i + 1) by lia.
  unfold count_calls in *.
  destruct (emitted sil t); cbn [app]; rewrite !filter_cons;
    cbn [is_pthread_create is_nanosleep is_teardown is_curl_global is_pthread_join];
    settle_decides; cbn [fmap list_fmap]; rewrite ?Hj; auto.
Qed.

Lemma dispatch_calls_counts (n : nat) :
  forall i,
    count_calls is_pthread_create (dispatch_calls i n) = n /\
    count_calls is_nanosleep (dispatch_calls i n) = n /\
    count_calls is_teardown (dispatch_calls i n) = O /\
    count_calls is_curl_global (dispatch_calls i n) = O /\
    count_calls is_pthread_join (dispatch_calls i n) = O /\
    filter (fun x => is_pthread_join x = true) (dispatch_calls i n) = [].
Proof.
  induction n as [| n IH]; intros i; [by cbn |].
  destruct (IH (i + 1)) as (Hc & Hn & Ht & Hg & Hj & Hf).
  cbn [dispatch_calls]. unfold count_calls in *. rewrite !filter_cons.
  cbn [is_pthread_create is_nanosleep is_teardown is_curl_global is_pthread_join].
  settle_decides. cbn [length]. rewrite ?Hc, ?Hn, ?Ht, ?Hg, ?Hj, ?Hf.
  repeat split; reflexivity.
Qed.

(** In a run that goes to its end, [curl_global_init] comes before the
    first thread, every [pthread_create] is followed at once by one pause
    of 150000 ns, the threads are created in the order of their ordinals,
    and all of them are created before anything else happens: after the
    last pause no thread is created and no pause is made. *)
Theorem workers_paced (w : world) (c : configuration) :
  valid c -> 1 <= number_of_runs c -> calloc_ok w = true ->
  creates_ok w (number_of_runs c) -> joins_ok w (number_of_runs c) ->
  exists final rest,
    main w (initial_state c) = (Done 0, final) /\
    calls final =
      [TimespecGet; Calloc (number_of_runs c); CurlGlobalInit]
        ++ flat_map (fun i => [PthreadCreate i; Nanosleep 150000])
             (seqZ 0 (number_of_runs c))
        ++ rest /\
    count_calls is_pthread_create rest = O /\
    count_calls is_nanosleep rest = O.
Proof.
  intros Hv Hn Hc Hcr Hjo.
  destruct (main_completes w c Hv Hc ltac:(lia) Hcr Hjo) as [et Hmain].
  eexists. eexists. split; [exact Hmain |]. cbn [calls].
  rewrite dispatch_calls_flat_map, Z2Nat.id by lia.
  split; [reflexivity |].
  destruct (aggregate_calls_counts (silent c) (records_of w c) 0) as (Hc0 & Hn0 & _).
  rewrite !count_calls_app, Hc0, Hn0. split; reflexivity.
Qed.

Lemma workers_paced_witness :
  exists final rest,
    main (a_world all_fine all_fine mixed) (initial_state (a_config 3 1)) = (Done 0, final) /\
    calls final =
      [TimespecGet; Calloc 3; CurlGlobalInit]
        ++ flat_map (fun i => [PthreadCreate i; Nanosleep 150000]) (seqZ 0 3)
        ++ rest /\
    count_calls is_pthread_create rest = O /\
    count_calls is_nanosleep rest = O.
Proof.
  apply (workers_paced (a_world all_fine all_fine mixed) (a_config 3 1)).
  - unfold valid. vm_compute. discriminate.
  - simpl. lia.
  - reflexivity.
  - intros j Hj. reflexivity.
  - intros j Hj. reflexivity.
Defined.

(** In a run that goes to its end, every thread is joined once, in the
    order of the ordinals; [curl_global_cleanup] and [free] come after the
    last join and the last record, followed only by the reading of the
    clock and the last line; libcurl is set up once and torn down once. *)
Theorem joined_in_order_then_torn_down (w : world) (c : configuration) :
  valid c -> 1 <= number_of_runs c -> calloc_ok w = true ->
  creates_ok w (number_of_runs c) -> joins_ok w (number_of_runs c) ->
  exists final before,
    main w (initial_state c) = (Done 0, final) /\
    filter (fun x => is_pthread_join x = true) (calls final)
      = PthreadJoin <$> seqZ 0 (number_of_runs c) /\
    calls final =
      before ++ [CurlGlobalCleanup; Free; TimespecGet;
                 Stdout (summary_line (errors final) (number_of_runs c)
                           (program_elapsed w))] /\
    count_calls is_teardown before = O /\
    count_calls is_curl_global (calls final) = 2%nat.
Proof.
  intros Hv Hn Hc Hcr Hjo.
  destruct (main_completes w c Hv Hc ltac:(lia) Hcr Hjo) as [et Hmain].
  eexists.
  exists (setup_calls c ++ dispatch_calls 0 (Z.to_nat (number_of_runs c))
            ++ aggregate_calls (silent c) 0 (records_of w c)).
  split; [exact Hmain |]. cbn [calls errors].
  destruct (aggregate_calls_counts (silent c) (records_of w c) 0)
    as (_ & _ & Ht & Hg & Hj).
  destruct (dispatch_calls_counts (Z.to_nat (number_of_runs c)) 0)
    as (_ & _ & Ht' & Hg' & _ & Hj').
  split; [| split; [| split]].
  - rewrite !filter_app, Hj, Hj'. unfold records_of. rewrite length_dispatched.
    rewrite Z2Nat.id by lia.
    change (filter _ (setup_calls c)) with (@nil call).
    change (filter _ (finish_calls _ _ _)) with (@nil call).
    by rewrite app_nil_r.
  - unfold finish_calls. by rewrite <- !app_assoc.
  - rewrite !count_calls_app, Ht, Ht'. reflexivity.
  - rewrite !count_calls_app, Hg, Hg'. reflexivity.
Qed.

Lemma joined_in_order_then_torn_down_witness :
  exists final before,
    main (a_world all_fine all_fine mixed) (initial_state (a_config 3 1)) = (Done 0, final) /\
    filter (fun x => is_pthread_join x = true) (calls final)
      = PthreadJoin <$> seqZ 0 3 /\
    calls final =
      before ++ [CurlGlobalCleanup; Free; TimespecGet;
                 Stdout (summary_line (errors final) 3
                           (program_elapsed (a_world all_fine all_fine mixed)))] /\
    count_calls is_teardown before = O /\
    count_calls is_curl_global (calls final) = 2%nat.
Proof.
  apply (joined_in_order_then_torn_down (a_world all_fine all_fine mixed) (a_config 3 1)).
  - unfold valid. vm_compute. discriminate.
  - simpl. lia.
  - reflexivity.
  - intros j Hj. reflexivity.
  - intros j Hj. reflexivity.
Defined.

(** ** Runs that are cut short *)

(** When a thread cannot be created or joined, the process exits from
    inside the loop: [curl_global_cleanup] and [free] are never reached
    and the last line is never printed. After a failed [pthread_create]
    no thread at all is joined, though [k] of them are running; after a
    failed [pthread_join] of thread [k] the threads behind it are never
    joined, and the only lines printed are those of the records before
    [k]. *)
Theorem abort_skips_teardown (w : world) (c : configuration) :
  valid c -> 1 <= number_of_runs c -> calloc_ok w = true ->
  (forall k, 0 <= k < number_of_runs c ->
     creates_ok w k -> pthread_create_result w k <> 0 ->
     exists final,
       main w (initial_state c) = (Exited EXIT_FAILURE, final) /\
       count_calls is_teardown (calls final) = O /\
       count_calls is_pthread_create (calls final) = S (Z.to_nat k) /\
       count_calls is_pthread_join (calls final) = O /\
       stdout_of (calls final) = []) /\
  (forall k, 0 <= k < number_of_runs c ->
     creates_ok w (number_of_runs c) ->
     joins_ok w k -> pthread_join_result w k <> 0 ->
     exists final,
       main w (initial_state c) = (Exited EXIT_FAILURE, final) /\
       count_calls is_teardown (calls final) = O /\
       filter (fun x => is_pthread_join x = true) (calls final)
         = PthreadJoin <$> seqZ 0 (k + 1) /\
       stdout_of (calls final) =
         line_of <$> filter (fun t => emitted (silent c) t = true)
                       (take (Z.to_nat k) (records_of w c))).
Proof.
  intros Hv Hn Hc. split.
  - intros k Hk Hcr Hko.
    rewrite (main_create_aborts w c k Hv Hc Hk Hcr Hko). eexists.
    split; [reflexivity |]. cbn [calls].
    destruct (dispatch_calls_counts (Z.to_nat k) 0) as (Hc' & _ & Ht & _ & Hj & _).
    rewrite !count_calls_app, !stdout_of_app, stdout_of_dispatch_calls, Hc', Ht, Hj.
    repeat split; try reflexivity.
    change (count_calls is_pthread_create (setup_calls c)) with O.
    change (count_calls is_pthread_create [PthreadCreate k; Perror _ _]) with 1%nat.
    lia.
  - intros k Hk Hcr Hjo Hko.
    destruct (main_join_aborts w c k Hv Hc Hk Hcr Hjo Hko) as [et Hmain].
    rewrite Hmain. eexists. split; [reflexivity |]. cbn [calls].
    destruct (dispatch_calls_counts (Z.to_nat (number_of_runs c)) 0)
      as (_ & _ & Ht & _ & _ & Hj).
    destruct (aggregate_calls_counts (silent c) (take (Z.to_nat k) (records_of w c)) 0)
      as (_ & _ & Ht' & _ & Hj').
    assert (Hlen : length (take (Z.to_nat k) (records_of w c)) = Z.to_nat k).
    { rewrite length_take. unfold records_of. rewrite length_dispatched. lia. }
    split; [| split].
    + rewrite !count_calls_app, Ht, Ht'. reflexivity.
    + rewrite !filter_app, Hj, Hj', Hlen, Z2Nat.id by lia.
      change (filter _ (setup_calls c)) with (@nil call).
      rewrite filter_cons, decide_True by done.
      rewrite filter_cons, decide_False by done.
      cbn [app filter].
      replace (k + 1) with (Z.of_nat (S (Z.to_nat k))) by lia.
      rewrite seqZ_S, fmap_app, Z2Nat.id by lia. reflexivity.
    + rewrite !stdout_of_app, stdout_of_dispatch_calls, stdout_of_aggregate_calls.
      cbn. by rewrite app_nil_r.
Qed.

Lemma abort_skips_teardown_witness :
  (exists final,
     main (a_world (fails_at 1 11) all_fine mixed) (initial_state (a_config 3 0))
       = (Exited EXIT_FAILURE, final) /\
     count_calls is_teardown (calls final) = O /\
     count_calls is_pthread_create (calls final) = S (Z.to_nat 1) /\
     count_calls is_pthread_join (calls final) = O /\
     stdout_of (calls final) = []) /\
  (exists final,
     main (a_world all_fine (fails_at 1 22) mixed) (initial_state (a_config 3 0))
       = (Exited EXIT_FAILURE, final) /\
     count_calls is_teardown (calls final) = O /\
     filter (fun x => is_pthread_join x = true) (calls final)
       = PthreadJoin <$> seqZ 0 (1 + 1) /\
     stdout_of (calls final) =
       line_of <$> filter (fun t => emitted 0 t = true)
                     (take (Z.to_nat 1)
                        (records_of (a_world all_fine (fails_at 1 22) mixed)
                           (a_config 3 0)))).
Proof.
  assert (Hv : valid (a_config 3 0)) by (unfold valid; vm_compute; discriminate).
  assert (Hn : 1 <= number_of_runs (a_config 3 0)) by (simpl; lia).
  split.
  - destruct (abort_skips_teardown (a_world (fails_at 1 11) all_fine mixed)
                (a_config 3 0) Hv Hn eq_refl) as (Hcreate & _).
    apply (Hcreate 1).
    + simpl; lia.
    + intros j Hj. unfold fails_at. simpl.
      destruct (Z.eqb_spec j 1); [lia | reflexivity].
    + simpl. discriminate.
  - destruct (abort_skips_teardown (a_world all_fine (fails_at 1 22) mixed)
                (a_config 3 0) Hv Hn eq_refl) as (_ & Hjoin).
    apply (Hjoin 1).
    + simpl; lia.
    + intros j Hj. reflexivity.
    + intros j Hj. unfold fails_at. simpl.
      destruct (Z.eqb_spec j 1); [lia | reflexivity].
    + simpl. discriminate.
Defined.

(** ** Silent and verbose runs *)

Lemma filter_all {A} (P : A -> Prop) `{forall x, Decision (P x)} (l : list A) :
  (forall x, P x) -> filter P l = l.
Proof.
  intros HP. induction l as [| x l IH]; [reflexivity |].
  rewrite filter_cons, decide_True by apply HP. by rewrite IH.
Qed.

(** [-s] changes the output of a run and nothing else: with the same
    answers from the outside world a silent and a verbose run leave the
    same records and the same error count and print the same last line;
    the verbose run prints one line for each record, in order, and the
    silent run prints, of these lines, those of the records with a
    transport error, in the same order. *)
Theorem silent_only_drops_lines (w : world) (c : configuration) (sil : Z) :
  valid c -> 1 <= number_of_runs c -> calloc_ok w = true ->
  creates_ok w (number_of_runs c) -> joins_ok w (number_of_runs c) ->
  sil <> 0 ->
  exists verbose quiet records last_line,
    main w (initial_state (set_silent 0 c)) = (Done 0, verbose) /\
    main w (initial_state (set_silent sil c)) = (Done 0, quiet) /\
    threads verbose = Some records /\ threads quiet = Some records /\
    errors quiet = errors verbose /\
    stdout_of (calls verbose) = (line_of <$> records) ++ [last_line] /\
    stdout_of (calls quiet)
      = (line_of <$> filter (fun t => is_error t = true) records) ++ [last_line] /\
    stdout_of (calls quiet) `sublist_of` stdout_of (calls verbose) /\
    Z.of_nat (length (stdout_of (calls verbose))) = number_of_runs c + 1.
Proof.
  intros Hv Hn Hc Hcr Hjo Hsil.
  destruct (main_completes w (set_silent 0 c) Hv Hc ltac:(cbn; lia) Hcr Hjo) as [et1 H1].
  destruct (main_completes w (set_silent sil c) Hv Hc ltac:(cbn; lia) Hcr Hjo) as [et2 H2].
  change (records_of w (set_silent 0 c)) with (records_of w c) in H1.
  change (records_of w (set_silent sil c)) with (records_of w c) in H2.
  eexists. eexists. exists (records_of w c).
  exists (summary_line (to_int (count_errors (records_of w c))) (number_of_runs c)
            (program_elapsed w)).
  split; [exact H1 |]. split; [exact H2 |]. cbn [threads errors calls].
  split; [reflexivity |]. split; [reflexivity |]. split; [reflexivity |].
  rewrite !stdout_of_app, !stdout_of_dispatch_calls, !stdout_of_aggregate_calls.
  cbn [silent set_silent number_of_runs app].
  assert (Hall : filter (fun t => emitted 0 t = true) (records_of w c) = records_of w c)
    by (apply filter_all; reflexivity).
  assert (Herr : filter (fun t => emitted sil t = true) (records_of w c)
                 = filter (fun t => is_error t = true) (records_of w c)).
  { apply list_filter_iff. intros t. unfold emitted.
    apply Z.eqb_neq in Hsil. by rewrite Hsil. }
  rewrite Hall, Herr.
  change (stdout_of (setup_calls _)) with (@nil string).
  change (stdout_of (finish_calls ?e ?n ?t)) with [summary_line e n t].
  cbn [app]. split; [reflexivity |]. split; [reflexivity |]. split.
  - apply sublist_app; [| reflexivity]. apply fmap_sublist, sublist_filter.
  - rewrite length_app, length_fmap. cbn [length].
    pose proof (length_records_of w c ltac:(lia)). lia.
Qed.

Lemma silent_only_drops_lines_witness :
  exists verbose quiet records last_line,
    main (a_world all_fine all_fine mixed) (initial_state (set_silent 0 (a_config 3 0)))
      = (Done 0, verbose) /\
    main (a_world all_fine all_fine mixed) (initial_state (set_silent 1 (a_config 3 0)))
      = (Done 0, quiet) /\
    threads verbose = Some records /\ threads quiet = Some records /\
    errors quiet = errors verbose /\
    stdout_of (calls verbose) = (line_of <$> records) ++ [last_line] /\
    stdout_of (calls quiet)
      = (line_of <$> filter (fun t => is_error t = true) records) ++ [last_line] /\
    stdout_of (calls quiet) `sublist_of` stdout_of (calls verbose) /\
    Z.of_nat (length (stdout_of (calls verbose))) = 3 + 1.
Proof.
  apply (silent_only_drops_lines (a_world all_fine all_fine mixed) (a_config 3 0) 1).
  - unfold valid. vm_compute. discriminate.
  - simpl. lia.
  - reflexivity.
  - intros j Hj. reflexivity.
  - intros j Hj. reflexivity.
  - lia.
Defined.

(** ** What the error count tells *)

Lemma count_errors_zero (l : list thread_info) :
  count_errors l = 0 <-> Forall (fun t => curl_error_code t = 0) l.
Proof.
  unfold count_errors. induction l as [| t l IH]; [split; [constructor | reflexivity] |].
  rewrite filter_cons, Forall_cons. pose proof (is_error_iff t) as Ht.
  destruct (decide (is_error t = true)) as [He | He].
  - cbn [length]. split; [lia |]. intros [Hz _]. tauto.
  - rewrite IH. split; [| tauto]. intros Hl. split; [| exact Hl].
    destruct (Z.eq_dec (curl_error_code t) 0); tauto.
Qed.

Lemma count_errors_full (l : list thread_info) :
  count_errors l = Z.of_nat (length l) <-> Forall (fun t => curl_error_code t <> 0) l.
Proof.
  induction l as [| t l IH]; [split; [constructor | reflexivity] |].
  pose proof (count_errors_bounds l) as Hb.
  unfold count_errors in *. rewrite filter_cons, Forall_cons.
  pose proof (is_error_iff t) as Ht.
  destruct (decide (is_error t = true)) as [He | He]; cbn [length].
  - rewrite <- IH. split; [| lia]. intros H. split; [tauto | lia].
  - split; [lia | tauto].
Qed.

(** In a run of at most 2147483647 workers that goes to its end, the last
    line reports a count between 0 and the number of runs; it reports 0
    errors exactly when every transfer returned [CURLE_OK], and as many
    errors as runs exactly when none did. *)
Theorem error_count_extremes (w : world) (c : configuration) :
  valid c -> 1 <= number_of_runs c <= INT_MAX -> calloc_ok w = true ->
  creates_ok w (number_of_runs c) -> joins_ok w (number_of_runs c) ->
  exists final records,
    main w (initial_state c) = (Done 0, final) /\
    threads final = Some records /\
    0 <= errors final <= number_of_runs c /\
    (errors final = 0 <-> Forall (fun t => curl_error_code t = 0) records) /\
    (errors final = number_of_runs c <-> Forall (fun t => curl_error_code t <> 0) records).
Proof.
  intros Hv Hn Hc Hcr Hjo.
  destruct (main_completes w c Hv Hc ltac:(lia) Hcr Hjo) as [et Hmain].
  eexists. exists (records_of w c). split; [exact Hmain |]. cbn [threads errors].
  split; [reflexivity |].
  pose proof (count_errors_bounds (records_of w c)) as Hb.
  pose proof (length_records_of w c ltac:(lia)) as Hlen.
  rewrite to_int_id by (unfold in_int, INT_MIN, INT_MAX in *; lia).
  split; [lia |]. split; [apply count_errors_zero |].
  rewrite <- Hlen. apply count_errors_full.
Qed.

Lemma error_count_extremes_witness :
  exists final records,
    main all_refused (initial_state (a_config 3 1)) = (Done 0, final) /\
    threads final = Some records /\
    0 <= errors final <= 3 /\
    (errors final = 0 <-> Forall (fun t => curl_error_code t = 0) records) /\
    (errors final = 3 <-> Forall (fun t => curl_error_code t <> 0) records).
Proof.
  apply (error_count_extremes all_refused (a_config 3 1)).
  - unfold valid. vm_compute. discriminate.
  - unfold INT_MAX. simpl. lia.
  - reflexivity.
  - intros j Hj. reflexivity.
  - intros j Hj. reflexivity.
Defined.

Example all_refused_output :
  stdout_of (calls (snd (main all_refused (initial_state (a_config 2 1))))) =
    [ "Thread=0: response_code=0: seconds=0.000300000: curl_time_t=000250: os_error_code=111: curl_error_code=7: curl_error=Connection refused" +:+ newline;
      "Thread=1: response_code=0: seconds=0.000300000: curl_time_t=000250: os_error_code=111: curl_error_code=7: curl_error=Connection refused" +:+ newline;
      "2 errors out of 2 runs in 2.000000500 real seconds" +:+ newline ].
Proof. vm_compute. reflexivity. Qed.

(** Only the transport decides what an error is. A record whose transfer
    returned [CURLE_OK] leaves the error count as it is and, in a silent
    run, prints nothing, whatever HTTP status and OS error code it holds;
    a record whose transfer returned anything else adds one to the count
    and is printed, even with a status of 200. *)
Theorem http_status_is_not_an_error (w : world) (i : Z) s l t :
  threads s = Some l -> 0 <= i -> l !! Z.to_nat i = Some t ->
  pthread_join_result w i = 0 ->
  exists s',
    aggregate_body w i s = (Done tt, s') /\
    (curl_error_code t = 0 ->
     errors s' = errors s /\
     (silent (config s) <> 0 -> stdout_of (calls s') = stdout_of (calls s))) /\
    (curl_error_code t <> 0 ->
     errors s' = to_int (errors s + 1) /\
     stdout_of (calls s') = stdout_of (calls s) ++ [line_of t]).
Proof.
  intros Hl Hi Ht Hok. rewrite (aggregate_body_ok w i s l t Hl Hi Ht Hok).
  eexists. split; [reflexivity |]. cbn [errors calls].
  unfold emitted, is_error. rewrite stdout_of_app. split.
  - intros Hz. rewrite Hz. cbn [Z.eqb negb]. split; [reflexivity |].
    intros Hsil. apply Z.eqb_neq in Hsil. rewrite Hsil. cbn. by rewrite app_nil_r.
  - intros Hnz. apply Z.eqb_neq in Hnz. rewrite Hnz. cbn [negb].
    rewrite orb_true_r. split; reflexivity.
Qed.

(** An HTTP 500 received without transport error, in a silent run. *)
Lemma http_status_is_not_an_error_witness :
  let w := a_world all_fine all_fine (fun _ => server_error) in
  let t := started w (Some "http://localhost") 0 zero_thread_info in
  let s := mk_state (a_config 1 1) (Some [t]) 0 (mk_timespec 0 0) (mk_timespec 0 0) [] in
  response_code t = 500 /\
  exists s',
    aggregate_body w 0 s = (Done tt, s') /\
    (curl_error_code t = 0 ->
     errors s' = errors s /\
     (silent (config s) <> 0 -> stdout_of (calls s') = stdout_of (calls s))) /\
    (curl_error_code t <> 0 ->
     errors s' = to_int (errors s + 1) /\
     stdout_of (calls s') = stdout_of (calls s) ++ [line_of t]).
Proof.
  cbv zeta. split; [reflexivity |].
  apply (http_status_is_not_an_error (a_world all_fine all_fine (fun _ => server_error)) 0
           (mk_state (a_config 1 1)
              (Some [started (a_world all_fine all_fine (fun _ => server_error))
                       (Some "http://localhost") 0 zero_thread_info])
              0 (mk_timespec 0 0) (mk_timespec 0 0) [])
           [started (a_world all_fine all_fine (fun _ => server_error))
              (Some "http://localhost") 0 zero_thread_info]).
  - reflexivity.
  - lia.
  - reflexivity.
  - reflexivity.
Defined.

Example server_errors_are_no_errors :
  stdout_of (calls (snd (main (a_world all_fine all_fine (fun _ => server_error))
                           (initial_state (a_config 2 1))))) =
    [ "0 errors out of 2 runs in 2.000000500 real seconds" +:+ newline ].
Proof. vm_compute. reflexivity. Qed.

(** ** One slot for each worker *)

(** In a run that goes to its end, the record of ordinal [i] holds the
    configured URL, the thread id that [pthread_create] gave for [i] and
    the two clock readings of worker [i], and it is the same record in any
    other world that answers worker [i] in the same way: what the other
    workers get from libcurl and the clock does not reach it. *)
Theorem record_belongs_to_its_worker (w w' : world) (c : configuration) (i : Z) :
  valid c -> 1 <= number_of_runs c ->
  calloc_ok w = true -> creates_ok w (number_of_runs c) -> joins_ok w (number_of_runs c) ->
  calloc_ok w' = true -> creates_ok w' (number_of_runs c) -> joins_ok w' (number_of_runs c) ->
  0 <= i < number_of_runs c ->
  worker_answers w i = worker_answers w' i ->
  pthread_create_id w i = pthread_create_id w' i ->
  exists final final' records records' t,
    main w (initial_state c) = (Done 0, final) /\
    main w' (initial_state c) = (Done 0, final') /\
    threads final = Some records /\ threads final' = Some records' /\
    records !! Z.to_nat i = Some t /\ records' !! Z.to_nat i = Some t /\
    url t = config_url c /\
    thread_id t = pthread_create_id w i /\
    start t = Worker.clock_at_start (worker_answers w i) /\
    end_ t = Worker.clock_at_end (worker_answers w i).
Proof.
  intros Hv Hn Hc Hcr Hjo Hc' Hcr' Hjo' Hi Hans Hid.
  destruct (main_completes w c Hv Hc ltac:(lia) Hcr Hjo) as [et Hmain].
  destruct (main_completes w' c Hv Hc' ltac:(lia) Hcr' Hjo') as [et' Hmain'].
  eexists. eexists. exists (records_of w c), (records_of w' c).
  exists (started w (config_url c) i zero_thread_info).
  split; [exact Hmain |]. split; [exact Hmain' |]. cbn [threads].
  split; [reflexivity |]. split; [reflexivity |].
  split; [by apply records_of_lookup |]. split.
  - rewrite (records_of_lookup w' c i Hi). unfold started. by rewrite Hans, Hid.
  - destruct (started_identity w (config_url c) i zero_thread_info) as (_ & Hid' & Hurl).
    destruct (started_stamps w (config_url c) i zero_thread_info) as (Hs & He).
    auto.
Qed.

Lemma record_belongs_to_its_worker_witness :
  exists final final' records records' t,
    main (a_world all_fine all_fine mixed) (initial_state (a_config 3 0)) = (Done 0, final) /\
    main all_served (initial_state (a_config 3 0)) = (Done 0, final') /\
    threads final = Some records /\ threads final' = Some records' /\
    records !! Z.to_nat 0 = Some t /\ records' !! Z.to_nat 0 = Some t /\
    url t = config_url (a_config 3 0) /\
    thread_id t = pthread_create_id (a_world all_fine all_fine mixed) 0 /\
    start t = Worker.clock_at_start (worker_answers (a_world all_fine all_fine mixed) 0) /\
    end_ t = Worker.clock_at_end (worker_answers (a_world all_fine all_fine mixed) 0).
Proof.
  apply (record_belongs_to_its_worker (a_world all_fine all_fine mixed) all_served
           (a_config 3 0) 0).
  - unfold valid. vm_compute. discriminate.
  - simpl. lia.
  - reflexivity.
  - intros j Hj. reflexivity.
  - intros j Hj. reflexivity.
  - reflexivity.
  - intros j Hj. reflexivity.
  - intros j Hj. reflexivity.
  - simpl. lia.
  - reflexivity.
  - reflexivity.
Defined.

(** ** The buffer of the diagnostics *)

(** The text that [sprintf] writes into [temp_error_buf], a buffer of 50
    bytes, is shorter than 50 characters for every ordinal a 64-bit
    counter can hold, in both loops: with its closing NUL it fits. *)
Theorem diagnostics_fit_their_buffer (i : Z) :
  in_long i ->
  (String.length ("pthread_create: thread_num " +:+ fmt_ld i) < 50)%nat /\
  (String.length ("pthread_join: thread_num " +:+ fmt_ld i) < 50)%nat.
Proof.
  intros Hi.
  assert (Hd : (String.length (digits i) <= 19)%nat).
  { apply length_digits; [lia |].
    change (10 ^ Z.of_nat 19) with 10000000000000000000.
    unfold in_long, LONG_MIN, LONG_MAX in Hi. lia. }
  assert (Hf : (String.length (fmt_ld i) <= 20)%nat).
  { unfold fmt_ld. rewrite length_fmt_0ld. destruct (i <? 0); lia. }
  rewrite !length_append. cbn [String.length]. lia.
Qed.

Lemma diagnostics_fit_their_buffer_witness :
  (String.length ("pthread_create: thread_num " +:+ fmt_ld LONG_MAX) < 50)%nat /\
  (String.length ("pthread_join: thread_num " +:+ fmt_ld LONG_MAX) < 50)%nat.
Proof.
  apply (diagnostics_fit_their_buffer LONG_MAX).
  unfold in_long, LONG_MIN, LONG_MAX. lia.
Defined.

Example longest_diagnostic :
  String.length ("pthread_create: thread_num " +:+ fmt_ld LONG_MAX) = 46%nat.
Proof. reflexivity. Qed.
